(** * lod.py: generator of a leaf / library / executable source tree

    A shallow embedding of the generation phase of [lod.py]: the naming and
    path helpers, the partitioner, the three source generators and the
    emitter of the Ninja build plan, followed by the properties the
    specification states about them.

    Python integers are unbounded and are embedded as [Z]; text is embedded
    as [string]; the file system the script writes to is a finite map from
    path strings to file contents together with the set of directories the
    script asked for.  Exceptions are values of [Py.exn], and a computation
    that raises keeps the files it has written before.  The progress lines
    the script prints on its standard output are not part of the model. *)

From Stdlib Require Import ZArith Lia String Ascii List Decimal DecimalString.
From Stdlib Require Import DecimalZ.
From stdpp Require Import base numbers list gmap strings.

Local Open Scope string_scope.
Local Open Scope Z_scope.

#[local] Arguments String.append !_ _ / : simpl nomatch.

(** ** Python primitives used by the script *)

Module Py.

(** The exceptions that the modelled code can raise. *)
Inductive exn : Type :=
| ZeroDivisionError
| OverflowError
| IndexError.

Inductive result (A : Type) : Type :=
| Ok (a : A)
| Raise (e : exn).
Arguments Ok {A} a.
Arguments Raise {A} e.

(** [str(n)] for an integer. *)
Definition str (n : Z) : string := NilEmpty.string_of_int (Z.to_int n).

(** [len(s)] for a string. *)
Definition len (s : string) : Z := Z.of_nat (String.length s).

Fixpoint zeros (n : nat) : string :=
  match n with
  | O => EmptyString
  | S k => String "0" (zeros k)
  end.

(** The format [f"{i:0{w}}"]: decimal, sign first, zero-filled up to a total
    width of [w]; never truncated. *)
Definition format_zero (w i : Z) : string :=
  let sign := if i <? 0 then "-" else "" in
  let digits := str (Z.abs i) in
  sign +:+ zeros (Z.to_nat (w - len sign - len digits)) +:+ digits.

(** A finite binary64 value [mant * 2 ^ expo]. *)
Record float : Type := { mant : Z; expo : Z }.

(** Round the non-negative rational [n / d] ([0 < d]) to the nearest
    integer, ties to even. *)
Definition round_half_even (n d : Z) : Z :=
  let q := n / d in
  let r := n mod d in
  if 2 * r <? d then q
  else if d <? 2 * r then q + 1
  else if Z.even q then q else q + 1.

(** [floor (log2 (a / b))] for positive [a] and [b]. *)
Definition quotient_exponent (a b : Z) : Z :=
  if b <=? a then Z.log2 (a / b) else - Z.log2_up ((b + a - 1) / a).

(** [a / b] on integers: the exact quotient correctly rounded to binary64
    (53 bits of precision, least exponent -1074, ties to even);
    [ZeroDivisionError] for a zero divisor and [OverflowError] when the
    rounded quotient is not finite. *)
Definition true_divide (a b : Z) : result float :=
  if b =? 0 then Raise ZeroDivisionError
  else if a =? 0 then Ok {| mant := 0; expo := 0 |}
  else
    let e := Z.max (quotient_exponent (Z.abs a) (Z.abs b) - 52) (-1074) in
    let m := round_half_even (Z.abs a * 2 ^ Z.max 0 (- e))
                             (Z.abs b * 2 ^ Z.max 0 e) in
    if (0 <=? e) && (2 ^ 1024 <=? m * 2 ^ e) then Raise OverflowError
    else Ok {| mant := Z.sgn a * Z.sgn b * m; expo := e |}.

(** [math.ceil(x)]: the least integer not below the finite float [x]. *)
Definition ceil (x : float) : Z :=
  if 0 <=? expo x then mant x * 2 ^ expo x
  else - ((- mant x) / 2 ^ (- expo x)).

(** [range(n)] and [range(a, b)]. *)
Definition range (n : Z) : list Z := seqZ 0 n.
Definition range2 (a b : Z) : list Z := seqZ a (b - a).

(** The slice [l[i:j]]: negative bounds count from the end, and both bounds
    are clipped to the list. *)
Definition slice {A : Type} (l : list A) (i j : Z) : list A :=
  let n := Z.of_nat (length l) in
  let clip k := if k <? 0 then Z.max 0 (k + n) else Z.min k n in
  take (Z.to_nat (clip j - clip i)) (drop (Z.to_nat (clip i)) l).

(** The subscript [l[i]], which raises [IndexError] out of range. *)
Definition index {A : Type} (l : list A) (i : Z) : result A :=
  let n := Z.of_nat (length l) in
  let k := if i <? 0 then i + n else i in
  if k <? 0 then Raise IndexError
  else match l !! Z.to_nat k with
       | Some x => Ok x
       | None => Raise IndexError
       end.

(** [s.replace(old, new)] for a non-empty [old]: the occurrences of [old]
    are found from left to right and do not overlap.  [skip] counts the
    characters of the current occurrence that are still to be dropped. *)
Fixpoint replace_go (old new : string) (skip : nat) (s : string) : string :=
  match s with
  | EmptyString => EmptyString
  | String c s' =>
      match skip with
      | S k => replace_go old new k s'
      | O =>
          if String.prefix old s
          then new +:+ replace_go old new (String.length old - 1) s'
          else String c (replace_go old new 0 s')
      end
  end.

Definition replace (old new s : string) : string := replace_go old new 0 s.

Definition is_sep (c : ascii) : bool := Ascii.eqb c "/".

Fixpoint ends_with_sep (s : string) : bool :=
  match s with
  | EmptyString => false
  | String c EmptyString => is_sep c
  | String _ s' => ends_with_sep s'
  end.

(** [os.path.join(a, b)] (POSIX). *)
Definition path_join (a b : string) : string :=
  if String.prefix "/" b then b
  else match a with
       | EmptyString => b
       | _ => if ends_with_sep a then a +:+ b else a +:+ "/" +:+ b
       end.

(** [os.path.basename(p)]: what follows the last separator.  [cur] is the
    suffix that starts after the last separator seen so far. *)
Fixpoint basename_from (cur p : string) : string :=
  match p with
  | EmptyString => cur
  | String c p' =>
      if is_sep c then basename_from p' p' else basename_from cur p'
  end.

Definition basename (p : string) : string := basename_from p p.

(** [sep.join(l)]. *)
Definition join (sep : string) (l : list string) : string :=
  String.concat sep l.

End Py.

Import Py.

(** ** Effects: exceptions, the file system and open files *)

Definition result_bind {A B : Type} (r : result A) (k : A -> result B) : result B :=
  match r with
  | Ok a => k a
  | Raise e => Raise e
  end.

(** The list [[f(x) for x in l]] when [f] can raise: the first exception
    ends the loop. *)
Fixpoint result_map {A B : Type} (f : A -> result B) (l : list A) : result (list B) :=
  match l with
  | [] => Ok []
  | x :: l' =>
      result_bind (f x) (fun y =>
      result_bind (result_map f l') (fun ys => Ok (y :: ys)))
  end.

(** The part of the file system the script acts on. *)
Record FileSystem : Type := {
  dirs : gset string;
  files : gmap string string
}.

Definition add_dir (p : string) (fs : FileSystem) : FileSystem :=
  {| dirs := {[ p ]} ∪ dirs fs; files := files fs |}.

Definition put_file (p text : string) (fs : FileSystem) : FileSystem :=
  {| dirs := dirs fs; files := <[ p := text ]> (files fs) |}.

(** A computation that acts on the file system and may raise.  The file
    system is returned in both cases: what was written before an exception
    stays written. *)
Definition Gen (A : Type) : Type := FileSystem -> result A * FileSystem.

Definition gen_ret {A : Type} (a : A) : Gen A := fun fs => (Ok a, fs).

Definition gen_bind {A B : Type} (m : Gen A) (k : A -> Gen B) : Gen B :=
  fun fs =>
    match m fs with
    | (Ok a, fs') => k a fs'
    | (Raise e, fs') => (Raise e, fs')
    end.

(** A pure call that may raise, made inside a [Gen] computation. *)
Definition lift {A : Type} (r : result A) : Gen A := fun fs => (r, fs).

(** [os.makedirs(p, exist_ok=True)]. *)
Definition makedirs (p : string) : Gen unit := fun fs => (Ok tt, add_dir p fs).

(** The loop [for x in l: acc.append(f(x))]. *)
Fixpoint gen_for {A B : Type} (l : list A) (f : A -> Gen B) : Gen (list B) :=
  match l with
  | [] => gen_ret []
  | x :: l' =>
      gen_bind (f x) (fun y =>
      gen_bind (gen_for l' f) (fun ys => gen_ret (y :: ys)))
  end.

(** The body of a [with open(path, 'w') as f] block: a computation on the
    text written to [f] so far.  None of the blocks of the script can raise
    once the file is open. *)
Definition Writer (A : Type) : Type := string -> A * string.

Definition w_ret {A : Type} (a : A) : Writer A := fun buf => (a, buf).

Definition w_bind {A B : Type} (m : Writer A) (k : A -> Writer B) : Writer B :=
  fun buf => let (a, buf') := m buf in k a buf'.

(** [f.write(s)]. *)
Definition fwrite (s : string) : Writer unit := fun buf => (tt, buf +:+ s).

(** The loop [for x in l: body(x)] inside an open file. *)
Fixpoint w_for {A : Type} (l : list A) (body : A -> Writer unit) : Writer unit :=
  match l with
  | [] => w_ret tt
  | x :: l' => w_bind (body x) (fun _ => w_for l' body)
  end.

(** [with open(path, 'w') as f: body]: the file is created or truncated and
    holds what the body wrote when the block ends. *)
Definition with_open {A : Type} (path : string) (body : Writer A) : Gen A :=
  fun fs => let (a, text) := body "" in (Ok a, put_file path text fs).

Declare Scope gen_scope.
Delimit Scope gen_scope with gen.
Notation "x <- m ;; k" := (gen_bind m (fun x => k))
  (at level 20, m at level 99, k at level 200, only parsing) : gen_scope.
Notation "m ;; k" := (gen_bind m (fun _ => k))
  (at level 100, k at level 200, right associativity, only parsing) : gen_scope.

Declare Scope writer_scope.
Delimit Scope writer_scope with writer.
Notation "m ;; k" := (w_bind m (fun _ => k))
  (at level 100, k at level 200, right associativity, only parsing) : writer_scope.

Declare Scope result_scope.
Delimit Scope result_scope with result.
Notation "x <- m ;; k" := (result_bind m (fun x => k))
  (at level 20, m at level 99, k at level 200, only parsing) : result_scope.

(** ** The configuration *)

(** The fields of the parsed command line that the generation phase reads. *)
Record Options : Type := {
  count_of_leaf_source_files : Z;
  library_object_count : Z;
  output_directory : string;
  clang : string;
  cflags : string
}.

Definition nl : string := String "010"%char EmptyString.
Definition dquote : string := String "034"%char EmptyString.

(** ** Names and paths *)

Definition get_src_name_padding (options : Options) : Z :=
  len (str (count_of_leaf_source_files options)).

Definition get_num_libraries_to_build (options : Options) : result Z :=
  (q <- true_divide (count_of_leaf_source_files options)
                    (library_object_count options) ;;
   Ok (ceil q))%result.

Definition get_lib_name_padding (options : Options) : result Z :=
  (n <- get_num_libraries_to_build options ;; Ok (len (str n)))%result.

Definition get_build_directory (options : Options) : string :=
  output_directory options.

Definition get_src_directory (options : Options) : string :=
  path_join (get_build_directory options) "src".

Definition get_obj_directory (options : Options) : string :=
  path_join (get_build_directory options) "obj".

Definition get_lib_directory (options : Options) : string :=
  path_join (get_build_directory options) "lib".

Definition get_bin_directory (options : Options) : string :=
  path_join (get_build_directory options) "bin".

Definition get_source_file_path (options : Options) (file_index : Z)
    (prefix : string) : string :=
  let src := get_src_directory options in
  let padding := get_src_name_padding options in
  let src_file := prefix +:+ "_" +:+ format_zero padding file_index +:+ ".cpp" in
  path_join src src_file.

Definition get_obj_file_path (options : Options) (src_file : string) : string :=
  let obj := get_obj_directory options in
  let obj_file := basename (replace ".cpp" ".o" src_file) in
  path_join obj obj_file.

Definition get_lib_file_path (options : Options) (lib_index : Z) : result string :=
  let lib := get_lib_directory options in
  (padding <- get_lib_name_padding options ;;
   let lib_file := "lib_" +:+ format_zero padding lib_index +:+ ".a" in
   Ok (path_join lib lib_file))%result.

Definition get_get_bin_file_path (options : Options) (name : string) : string :=
  path_join (get_bin_directory options) name.

Definition get_main_exe (options : Options) : string :=
  get_get_bin_file_path options "lod".

Definition get_ninja_file_path (options : Options) : string :=
  path_join (get_build_directory options) "build.ninja".

Definition create_output_dirs (options : Options) : Gen unit :=
  (makedirs (get_build_directory options) ;;
   makedirs (get_src_directory options) ;;
   makedirs (get_obj_directory options) ;;
   makedirs (get_lib_directory options) ;;
   makedirs (get_bin_directory options))%gen.

(** ** The partitioner *)

Definition get_lib_src_indices (options : Options) (lib_index : Z) : Z * Z :=
  let src_start := lib_index * library_object_count options in
  let src_end := src_start + library_object_count options in
  (src_start, Z.min src_end (count_of_leaf_source_files options)).

(** ** The generators *)

(** The leaf unit: the fixed text of the script, in which only the name of
    the function depends on the leaf. *)
Definition leaf_source_lines (name : string) : list string :=
  [ "        #include <vector>";
    "        #include <set>";
    "        #include <list>";
    "        #include <map>";
    "        #include <unordered_map>";
    "        #include <unordered_set>";
    "        #include <deque>";
    "        #include <string>";
    "        #include <bitset>";
    "        #include <tuple>";
    "";
    "        int " +:+ name +:+ "() {";
    "            std::set<int> s;";
    "            s.insert(1);";
    "";
    "            std::list<int> l;";
    "            l.emplace_back(1);";
    "";
    "            std::map<int, int> m;";
    "            m[1] = 1;";
    "";
    "            std::unordered_map<int, bool> um;";
    "            um[1] = false;";
    "";
    "            std::unordered_set<double> us;";
    "            us.insert(1.0);";
    "";
    "            std::deque<int> d;";
    "            d.push_front(1);";
    "";
    "            std::bitset<8> b8;";
    "            b8.set(1);";
    "";
    "            std::bitset<16> b16;";
    "            b16.set(1);";
    "";
    "            std::string str = " +:+ dquote +:+ "hello" +:+ dquote +:+ ";";
    "";
    "            std::tuple<int, int, int> t = std::make_tuple(1, 2, 3);";
    "            std::get<0>(t);";
    "";
    "            std::vector<int> v;";
    "            v.push_back((1));";
    "            return v.back();";
    "        }" ].

Definition leaf_contents (padding src_index : Z) : string :=
  nl +:+ String.concat ""
           (map (fun line => line +:+ nl)
                (leaf_source_lines ("src_" +:+ format_zero padding src_index)))
     +:+ "        ".

Definition generate_obj_source_file (options : Options) (src_index : Z) : Gen string :=
  let padding := get_src_name_padding options in
  let source_path := get_source_file_path options src_index "src" in
  (with_open source_path (fwrite (leaf_contents padding src_index)) ;;
   gen_ret source_path)%gen.

Definition generate_obj_source_files (options : Options) : Gen (list string) :=
  let num_object_files := count_of_leaf_source_files options in
  gen_for (range num_object_files) (fun i => generate_obj_source_file options i).

Definition generate_lib_source_file (options : Options) (lib_index : Z) : Gen string :=
  (lib_padding <- lift (get_lib_name_padding options) ;;
   let src_padding := get_src_name_padding options in
   let source_path := get_source_file_path options lib_index "lib" in
   with_open source_path
     (let '(start, end_) := get_lib_src_indices options lib_index in
      (w_for (range2 start end_) (fun src =>
         fwrite ("int src_" +:+ format_zero src_padding src +:+ "();" +:+ nl)) ;;
       fwrite nl ;;
       fwrite ("int lib_" +:+ format_zero lib_padding lib_index +:+ "() {" +:+ nl) ;;
       fwrite ("  int ret = 0;" +:+ nl) ;;
       w_for (range2 start end_) (fun src =>
         fwrite ("  ret += src_" +:+ format_zero src_padding src +:+ "();" +:+ nl)) ;;
       fwrite ("  return ret;" +:+ nl) ;;
       fwrite ("}" +:+ nl))%writer) ;;
   gen_ret source_path)%gen.

Definition generate_lib_source_files (options : Options) : Gen (list string) :=
  (num_lib_files <- lift (get_num_libraries_to_build options) ;;
   padding <- lift (get_lib_name_padding options) ;;
   gen_for (range num_lib_files) (fun i => generate_lib_source_file options i))%gen.

Definition generate_main_source_file (options : Options) : Gen string :=
  (num_lib_files <- lift (get_num_libraries_to_build options) ;;
   padding <- lift (get_lib_name_padding options) ;;
   let source_path := get_source_file_path options 0 "main" in
   with_open source_path
     (w_for (range num_lib_files) (fun src =>
        fwrite ("int lib_" +:+ format_zero padding src +:+ "();" +:+ nl)) ;;
      fwrite nl ;;
      fwrite ("int main() {" +:+ nl) ;;
      fwrite ("  int ret = 0;" +:+ nl) ;;
      w_for (range num_lib_files) (fun src =>
        fwrite ("  ret += lib_" +:+ format_zero padding src +:+ "();" +:+ nl)) ;;
      fwrite ("  return ret;" +:+ nl) ;;
      fwrite ("}" +:+ nl))%writer ;;
   gen_ret source_path)%gen.

Definition generate_main_source_files (options : Options) : Gen (list string) :=
  (main <- generate_main_source_file options ;;
   gen_ret [main])%gen.

Definition generate_source_files (options : Options)
    : Gen (list string * list string * list string) :=
  (obj_sources <- generate_obj_source_files options ;;
   lib_sources <- generate_lib_source_files options ;;
   main_sources <- generate_main_source_files options ;;
   gen_ret (obj_sources, lib_sources, main_sources))%gen.

(** ** The build plan *)

Definition split_object_files_into_libraries (options : Options)
    (obj_src lib_src : list string) : result (list (string * list string)) :=
  (n <- get_num_libraries_to_build options ;;
   result_map (fun i =>
     lib_name <- get_lib_file_path options i ;;
     let '(src_start, src_end) := get_lib_src_indices options i in
     lib_i <- index lib_src i ;;
     let lib_sources := (slice obj_src src_start src_end ++ [lib_i])%list in
     Ok (lib_name, lib_sources)) (range n))%result.

(** [puts(s)] is [print(s, file=f)]. *)
Definition puts (s : string) : Writer unit := fwrite (s +:+ nl).

Definition section (name : string) : Writer unit :=
  (puts "" ;;
   puts "#" ;;
   puts ("# " +:+ name) ;;
   puts "#")%writer.

Definition generate_ninja_file (options : Options)
    (obj_src lib_src main_src : list string) : Gen unit :=
  let c := clang options in
  let cflags := "-Wall -Wextra -O0 -g -gsplit-dwarf " +:+ cflags options in
  let linker := clang options in
  let linkflags := "-g" in
  (libraries <- lift (split_object_files_into_libraries options obj_src lib_src) ;;
   let ninja_file_path := get_ninja_file_path options in
   with_open ninja_file_path
     (section "Variables" ;;
      puts ("c = " +:+ c) ;;
      puts ("cflags = " +:+ cflags) ;;
      puts ("linker = " +:+ linker) ;;
      puts ("linkflags = " +:+ linkflags) ;;
      section "Rules" ;;
      puts "rule cc" ;;
      puts "  command = $c $cflags -c $in -o $out" ;;
      puts "rule archive" ;;
      puts "  command = ar rcs $out $in" ;;
      puts "rule link" ;;
      puts "  command = $linker $linkflags -o $out $in" ;;
      section "Build object files" ;;
      w_for (obj_src ++ lib_src ++ main_src)%list (fun src_file =>
        let obj_file := get_obj_file_path options src_file in
        puts ("build " +:+ obj_file +:+ ": cc " +:+ src_file)) ;;
      section "Build libraries" ;;
      w_for libraries (fun '(lib_name, lib_sources) =>
        let obj_files := map (get_obj_file_path options) lib_sources in
        puts ("build " +:+ lib_name +:+ ": archive " +:+ join " " obj_files)) ;;
      section "Build main executable" ;;
      (let main_obj_files := map (get_obj_file_path options) main_src in
       let main_lib_files := map fst libraries in
       let main_link_inputs := (main_obj_files ++ main_lib_files)%list in
       let main_exe := get_get_bin_file_path options "lod" in
       puts ("build " +:+ main_exe +:+ ": link " +:+ join " " main_link_inputs) ;;
       section "Define the default target" ;;
       puts ("default " +:+ main_exe)))%writer)%gen.

(** ** The generation phase of [main] *)

(** The branch [if options.generate] of [main].  The later phases run
    external tools on the generated tree and are not modelled. *)
Definition main_generate (options : Options) : Gen unit :=
  (create_output_dirs options ;;
   sources <- generate_source_files options ;;
   let '(obj, lib, main) := sources in
   generate_ninja_file options obj lib main)%gen.

(** The partition as the loops of the script enumerate it: one call of
    [get_lib_src_indices] for each index of [range(get_num_libraries_to_build)]. *)
Definition partition_ranges (options : Options) : result (list (Z * Z)) :=
  (n <- get_num_libraries_to_build options ;;
   Ok (map (get_lib_src_indices options) (range n)))%result.

(** ** Reference definitions, following the specification *)

(** [ceil(a / b)] on the exact quotient. *)
Definition ceil_div (a b : Z) : Z := - ((- a) / b).

(** Group [i] owns [[i * capacity, min ((i + 1) * capacity, leafCount))]. *)
Definition spec_range (leafCount capacity i : Z) : Z * Z :=
  (i * capacity, Z.min ((i + 1) * capacity) leafCount).

Definition spec_partition (leafCount capacity : Z) : list (Z * Z) :=
  map (spec_range leafCount capacity) (range (ceil_div leafCount capacity)).

(** Leaf [k] belongs to the half-open range [r]. *)
Definition owns (r : Z * Z) (k : Z) : bool := (r.1 <=? k) && (k <? r.2).

(** The generated units and the layout of the output tree. *)
Inductive GenUnit : Type :=
| Leaf (i : Z)
| Library (j : Z)
| Root.

Definition unit_role (u : GenUnit) : string :=
  match u with
  | Leaf _ => "src"
  | Library _ => "lib"
  | Root => "main"
  end.

Definition unit_index (u : GenUnit) : Z :=
  match u with
  | Leaf i => i
  | Library j => j
  | Root => 0
  end.

Definition unit_name (width : Z) (u : GenUnit) : string :=
  unit_role u +:+ "_" +:+ format_zero width (unit_index u).

(** [<outputRoot>/src/<role>_<padded>.cpp] *)
Definition unit_source (root : string) (width : Z) (u : GenUnit) : string :=
  path_join root ("src/" +:+ unit_name width u +:+ ".cpp").

(** [<outputRoot>/obj/<unitBaseName>.o] *)
Definition unit_object (root : string) (width : Z) (u : GenUnit) : string :=
  path_join root ("obj/" +:+ unit_name width u +:+ ".o").

(** [<outputRoot>/lib/lib_<paddedLib>.a] *)
Definition archive_path (root : string) (width j : Z) : string :=
  path_join root ("lib/lib_" +:+ format_zero width j +:+ ".a").

Definition executable_path (root : string) : string := path_join root "bin/lod".

Definition plan_path (root : string) : string := path_join root "build.ninja".

Definition units (leafCount libraryCount : Z) : list GenUnit :=
  (map Leaf (range leafCount) ++ map Library (range libraryCount) ++ [Root])%list.

(** The text of the library unit of partition [j] over the leaves [[s, e)]. *)
Definition library_unit_text (leafWidth libWidth j s e : Z) : string :=
  String.concat ""
    (map (fun k => "int src_" +:+ format_zero leafWidth k +:+ "();" +:+ nl)
         (range2 s e))
  +:+ nl
  +:+ "int lib_" +:+ format_zero libWidth j +:+ "() {" +:+ nl
  +:+ "  int ret = 0;" +:+ nl
  +:+ String.concat ""
        (map (fun k => "  ret += src_" +:+ format_zero leafWidth k +:+ "();" +:+ nl)
             (range2 s e))
  +:+ "  return ret;" +:+ nl
  +:+ "}" +:+ nl.

(** The text of the root unit over [n] libraries. *)
Definition root_unit_text (libWidth n : Z) : string :=
  String.concat ""
    (map (fun j => "int lib_" +:+ format_zero libWidth j +:+ "();" +:+ nl)
         (range n))
  +:+ nl
  +:+ "int main() {" +:+ nl
  +:+ "  int ret = 0;" +:+ nl
  +:+ String.concat ""
        (map (fun j => "  ret += lib_" +:+ format_zero libWidth j +:+ "();" +:+ nl)
             (range n))
  +:+ "  return ret;" +:+ nl
  +:+ "}" +:+ nl.

(** The build plan as a list of edges. *)
Record Edge : Type := {
  edge_rule : string;
  edge_output : string;
  edge_inputs : list string
}.

Definition render_edge (e : Edge) : string :=
  "build " +:+ edge_output e +:+ ": " +:+ edge_rule e +:+ " "
  +:+ join " " (edge_inputs e) +:+ nl.

Definition render_section (name : string) : string :=
  nl +:+ "#" +:+ nl +:+ "# " +:+ name +:+ nl +:+ "#" +:+ nl.

Definition compile_edge (root : string) (width : Z) (u : GenUnit) : Edge :=
  {| edge_rule := "cc";
     edge_output := unit_object root width u;
     edge_inputs := [unit_source root width u] |}.

Definition archive_edge (options : Options) (libWidth j : Z) : Edge :=
  let root := output_directory options in
  let width := get_src_name_padding options in
  let r := spec_range (count_of_leaf_source_files options)
                      (library_object_count options) j in
  {| edge_rule := "archive";
     edge_output := archive_path root libWidth j;
     edge_inputs :=
       (map (fun k => unit_object root width (Leaf k)) (range2 r.1 r.2)
        ++ [unit_object root width (Library j)])%list |}.

Definition link_edge (options : Options) (libWidth n : Z) : Edge :=
  let root := output_directory options in
  let width := get_src_name_padding options in
  {| edge_rule := "link";
     edge_output := executable_path root;
     edge_inputs :=
       unit_object root width Root :: map (archive_path root libWidth) (range n) |}.

Definition plan_preamble (options : Options) : string :=
  render_section "Variables"
  +:+ "c = " +:+ clang options +:+ nl
  +:+ "cflags = -Wall -Wextra -O0 -g -gsplit-dwarf " +:+ cflags options +:+ nl
  +:+ "linker = " +:+ clang options +:+ nl
  +:+ "linkflags = -g" +:+ nl
  +:+ render_section "Rules"
  +:+ "rule cc" +:+ nl
  +:+ "  command = $c $cflags -c $in -o $out" +:+ nl
  +:+ "rule archive" +:+ nl
  +:+ "  command = ar rcs $out $in" +:+ nl
  +:+ "rule link" +:+ nl
  +:+ "  command = $linker $linkflags -o $out $in" +:+ nl.

(** The build plan of a configuration with [n] libraries. *)
Definition build_plan_text (options : Options) (n : Z) : string :=
  let root := output_directory options in
  let width := get_src_name_padding options in
  let libWidth := len (str n) in
  plan_preamble options
  +:+ render_section "Build object files"
  +:+ String.concat ""
        (map (fun u => render_edge (compile_edge root width u))
             (units (count_of_leaf_source_files options) n))
  +:+ render_section "Build libraries"
  +:+ String.concat ""
        (map (fun j => render_edge (archive_edge options libWidth j)) (range n))
  +:+ render_section "Build main executable"
  +:+ render_edge (link_edge options libWidth n)
  +:+ render_section "Define the default target"
  +:+ "default " +:+ executable_path root +:+ nl.

(** The paths of every artifact of a run with [n] libraries, as the script
    computes them. *)
Definition artifact_paths (options : Options) (n : Z) : result (list string) :=
  let leaf_sources :=
    map (fun i => get_source_file_path options i "src")
        (range (count_of_leaf_source_files options)) in
  let lib_sources := map (fun j => get_source_file_path options j "lib") (range n) in
  let main_sources := [get_source_file_path options 0 "main"] in
  let sources := (leaf_sources ++ lib_sources ++ main_sources)%list in
  (archives <- result_map (get_lib_file_path options) (range n) ;;
   Ok (sources ++ map (get_obj_file_path options) sources ++ archives
       ++ [get_main_exe options; get_ninja_file_path options])%list)%result.

(** The effect of a run as a list of requests to the file system. *)
Inductive Action : Type :=
| Mkdir (p : string)
| Write (p text : string).

Definition perform (fs : FileSystem) (a : Action) : FileSystem :=
  match a with
  | Mkdir p => add_dir p fs
  | Write p text => put_file p text fs
  end.

Definition replay (log : list Action) (fs : FileSystem) : FileSystem :=
  foldl perform fs log.

(** A computation whose outcome and whose requests do not depend on the
    file system it starts from. *)
Definition uniform {A : Type} (m : Gen A) : Prop :=
  exists r log, forall fs, m fs = (r, replay log fs).

(** The text a log leaves at a path, when it writes there. *)
Fixpoint written (log : list Action) (p : string) : option string :=
  match log with
  | [] => None
  | Mkdir _ :: log' => written log' p
  | Write q text :: log' =>
      match written log' p with
      | Some t => Some t
      | None => if String.eqb q p then Some text else None
      end
  end.

Definition requested_dirs (log : list Action) : gset string :=
  foldr (fun a acc => match a with Mkdir p => {[ p ]} ∪ acc | Write _ _ => acc end)
        ∅ log.

(** The prefix that [os.path.join] puts before a relative name. *)
Definition root_prefix (root : string) : string :=
  match root with
  | EmptyString => EmptyString
  | _ => if ends_with_sep root then root else root +:+ "/"
  end.

(** No character of [s] is [c]. *)
Fixpoint lacks (c : ascii) (s : string) : bool :=
  match s with
  | EmptyString => true
  | String d s' => negb (Ascii.eqb d c) && lacks c s'
  end.

(** The requests of a run with [n] libraries, in the order of the script. *)
Definition dir_requests (options : Options) : list Action :=
  [ Mkdir (get_build_directory options);
    Mkdir (get_src_directory options);
    Mkdir (get_obj_directory options);
    Mkdir (get_lib_directory options);
    Mkdir (get_bin_directory options) ].

Definition leaf_requests (options : Options) : list Action :=
  let root := output_directory options in
  let width := get_src_name_padding options in
  map (fun i => Write (unit_source root width (Leaf i)) (leaf_contents width i))
      (range (count_of_leaf_source_files options)).

Definition library_request (options : Options) (n j : Z) : Action :=
  let root := output_directory options in
  let width := get_src_name_padding options in
  let r := spec_range (count_of_leaf_source_files options)
                      (library_object_count options) j in
  Write (unit_source root width (Library j))
        (library_unit_text width (len (str n)) j r.1 r.2).

Definition root_request (options : Options) (n : Z) : Action :=
  Write (unit_source (output_directory options) (get_src_name_padding options) Root)
        (root_unit_text (len (str n)) n).

Definition plan_request (options : Options) (n : Z) : Action :=
  Write (plan_path (output_directory options)) (build_plan_text options n).

Definition generation_log (options : Options) (n : Z) : list Action :=
  (dir_requests options ++ leaf_requests options
   ++ map (library_request options n) (range n)
   ++ [root_request options n; plan_request options n])%list.

(** The statements of the specification that the script does not meet, as
    the specification words them. *)

(** "The root unit reuses library-width padding": the identifier 0 padded to
    [len(str(libraryCount))] digits. *)
Definition claimed_root_unit_path (options : Options) (libraryCount : Z) : string :=
  unit_source (output_directory options) (len (str libraryCount)) Root.

(** "Library identifiers are zero-padded to [len(str(libraryCount))] digits",
    read for the source file of library [j]. *)
Definition claimed_library_unit_path (options : Options) (libraryCount j : Z) : string :=
  unit_source (output_directory options) (len (str libraryCount)) (Library j).

(** "A capacity of 0 fails with a configuration error before any file is
    written". *)
Definition claimed_zero_capacity_outcome (options : Options) (fs : FileSystem) : Prop :=
  fst (main_generate options fs) = Raise ZeroDivisionError
  /\ files (snd (main_generate options fs)) = files fs.

(** The first [k] characters of [s] exist and none is a separator. *)
Fixpoint clear_run (k : nat) (s : string) : bool :=
  match k with
  | O => true
  | S k' =>
      match s with
      | EmptyString => false
      | String c s' => negb (is_sep c) && clear_run k' s'
      end
  end.

(** The paths a log writes to, in order. *)
Fixpoint log_paths (log : list Action) : list string :=
  match log with
  | [] => []
  | Mkdir _ :: log' => log_paths log'
  | Write p _ :: log' => p :: log_paths log'
  end.

(** The number a string of decimal digits denotes, leading zeros included. *)
Fixpoint uint_value (d : Decimal.uint) : Z :=
  let shift k l := k * 10 ^ Z.of_nat (Decimal.nb_digits l) + uint_value l in
  match d with
  | Decimal.Nil => 0
  | Decimal.D0 l => shift 0 l
  | Decimal.D1 l => shift 1 l
  | Decimal.D2 l => shift 2 l
  | Decimal.D3 l => shift 3 l
  | Decimal.D4 l => shift 4 l
  | Decimal.D5 l => shift 5 l
  | Decimal.D6 l => shift 6 l
  | Decimal.D7 l => shift 7 l
  | Decimal.D8 l => shift 8 l
  | Decimal.D9 l => shift 9 l
  end.

(** The edges of the build plan of a configuration with [n] libraries, in
    the order of the plan. *)
Definition plan_edges (options : Options) (n : Z) : list Edge :=
  let root := output_directory options in
  let width := get_src_name_padding options in
  (map (compile_edge root width) (units (count_of_leaf_source_files options) n)
   ++ map (archive_edge options (len (str n))) (range n)
   ++ [link_edge options (len (str n)) n])%list.

(** Sample data *)
Definition empty_fs : FileSystem := {| dirs := ∅; files := ∅ |}.

Definition sample_options (n cap : Z) : Options :=
  {| count_of_leaf_source_files := n; library_object_count := cap;
     output_directory := "out"; clang := "clang++"; cflags := "" |}.

(** * Properties *)

(** ** Strings *)

Section StringFacts.

Lemma string_app_assoc (a b c : string) : (a +:+ b) +:+ c = a +:+ (b +:+ c).
Proof. induction a as [|x a IH]; simpl; congruence. Qed.

Lemma string_app_nil_r (a : string) : a +:+ "" = a.
Proof. induction a as [|x a IH]; simpl; congruence. Qed.

Lemma string_app_length (a b : string) :
  String.length (a +:+ b) = (String.length a + String.length b)%nat.
Proof. induction a as [|x a IH]; simpl; congruence. Qed.

Lemma lacks_app (c : ascii) (a b : string) :
  lacks c (a +:+ b) = lacks c a && lacks c b.
Proof.
  induction a as [|x a IH]; simpl; [reflexivity|].
  rewrite IH. now rewrite andb_assoc.
Qed.

Lemma lacks_zeros (c : ascii) (k : nat) : c <> "0"%char -> lacks c (zeros k) = true.
Proof.
  intros Hc. induction k as [|k IH]; cbn [zeros lacks]; [reflexivity|].
  rewrite IH, andb_true_r. apply negb_true_iff, Ascii.eqb_neq. congruence.
Qed.

Lemma lacks_uint (c : ascii) (d : Decimal.uint) :
  lacks c "0123456789" = true -> lacks c (NilEmpty.string_of_uint d) = true.
Proof.
  intros Hc. cbn [lacks] in Hc.
  repeat (apply andb_prop in Hc; destruct Hc as [? Hc]).
  induction d; cbn [NilEmpty.string_of_uint lacks]; try reflexivity;
    rewrite IHd, andb_true_r; assumption.
Qed.

Lemma str_abs_digits (i : Z) :
  exists d, str (Z.abs i) = NilEmpty.string_of_uint d /\ Z.of_uint d = Z.abs i
            /\ d <> Decimal.Nil.
Proof.
  destruct i as [|p|p]; cbn [Z.abs].
  - exists (Decimal.D0 Decimal.Nil). repeat split; discriminate.
  - exists (Pos.to_uint p). repeat split.
    + unfold Z.of_uint. now rewrite DecimalPos.Unsigned.of_to.
    + apply DecimalPos.Unsigned.to_uint_nonnil.
  - exists (Pos.to_uint p). repeat split.
    + unfold Z.of_uint. now rewrite DecimalPos.Unsigned.of_to.
    + apply DecimalPos.Unsigned.to_uint_nonnil.
Qed.

Lemma lacks_format_zero (c : ascii) (w i : Z) :
  lacks c "-0123456789" = true -> lacks c (format_zero w i) = true.
Proof.
  intros Hc. unfold format_zero.
  destruct (str_abs_digits i) as (d & -> & _ & _).
  change (lacks c "-0123456789")
    with (negb (Ascii.eqb "-" c) && lacks c "0123456789") in Hc.
  apply andb_prop in Hc. destruct Hc as [Hm Hd].
  rewrite !lacks_app, (lacks_uint c d Hd), lacks_zeros.
  - destruct (i <? 0); cbn [lacks]; [now rewrite Hm | reflexivity].
  - cbn [lacks] in Hd. apply andb_prop in Hd. destruct Hd as [H0 _].
    apply negb_true_iff, Ascii.eqb_neq in H0. congruence.
Qed.

Lemma str_nonempty (n : Z) : (1 <= String.length (str n))%nat.
Proof.
  unfold str. destruct n as [|p|p]; simpl; try lia.
  pose proof (DecimalPos.Unsigned.to_uint_nonnil p) as Hn.
  destruct (Pos.to_uint p); simpl; try lia. congruence.
Qed.

Lemma uint_of_string_zeros (k : nat) (s : string) :
  NilEmpty.uint_of_string (zeros k +:+ s)
  = option_map (Nat.iter k Decimal.D0) (NilEmpty.uint_of_string s).
Proof.
  induction k as [|k IH]; cbn [zeros String.append NilEmpty.uint_of_string Nat.iter].
  - now destruct (NilEmpty.uint_of_string s).
  - rewrite IH. now destruct (NilEmpty.uint_of_string s).
Qed.

Lemma of_uint_leading_zeros (k : nat) (d : Decimal.uint) :
  Z.of_uint (Nat.iter k Decimal.D0 d) = Z.of_uint d.
Proof. induction k as [|k IH]; [reflexivity | exact IH]. Qed.

Lemma int_of_string_unsigned (s : string) :
  lacks "-" s = true ->
  NilEmpty.int_of_string s = option_map Decimal.Pos (NilEmpty.uint_of_string s)
  \/ s = "".
Proof.
  destruct s as [|c s]; [now right|]. intros H. left.
  cbn [lacks] in H. apply andb_prop in H. destruct H as [H _].
  apply negb_true_iff in H. unfold NilEmpty.int_of_string. now rewrite H.
Qed.

(** Reading a formatted index back gives the index: the format loses
    nothing, whatever the width. *)
Lemma decode_format_zero (w i : Z) :
  option_map Z.of_int (NilEmpty.int_of_string (format_zero w i)) = Some i.
Proof.
  unfold format_zero.
  destruct (str_abs_digits i) as (d & Hd & Hv & Hn). rewrite Hd.
  set (k := Z.to_nat _).
  assert (Hu : NilEmpty.uint_of_string (zeros k +:+ NilEmpty.string_of_uint d)
               = Some (Nat.iter k Decimal.D0 d))
    by (now rewrite uint_of_string_zeros, NilEmpty.usu).
  destruct (Z.ltb_spec i 0) as [Hneg|Hpos].
  - cbn [String.append NilEmpty.int_of_string]. rewrite Ascii.eqb_refl, Hu.
    cbn [option_map Z.of_int]. rewrite of_uint_leading_zeros, Hv. f_equal. lia.
  - cbn [String.append].
    destruct (int_of_string_unsigned (zeros k +:+ NilEmpty.string_of_uint d)) as [E|E].
    + rewrite lacks_app, lacks_zeros by discriminate. now apply lacks_uint.
    + rewrite E, Hu. cbn [option_map Z.of_int].
      rewrite of_uint_leading_zeros, Hv. f_equal. lia.
    + exfalso. apply (f_equal String.length) in E.
      rewrite string_app_length in E. destruct d; cbn in E; try lia. congruence.
Qed.

Lemma format_zero_inj (w i j : Z) : format_zero w i = format_zero w j -> i = j.
Proof.
  intros E. pose proof (decode_format_zero w i) as Hi.
  rewrite E, decode_format_zero in Hi. congruence.
Qed.

Lemma format_zero_of_zero (w : Z) :
  1 <= w -> format_zero w 0 = zeros (Z.to_nat w).
Proof.
  intros Hw. unfold format_zero. cbn [Z.ltb Z.compare String.append].
  change (str (Z.abs 0)) with "0". change (len "") with 0. change (len "0") with 1.
  replace (Z.to_nat w) with (S (Z.to_nat (w - 0 - 1))) by lia.
  generalize (Z.to_nat (w - 0 - 1)). intros k.
  induction k as [|k IH]; cbn [zeros String.append]; [reflexivity|].
  f_equal. exact IH.
Qed.

Lemma zeros_length (k : nat) : String.length (zeros k) = k.
Proof. induction k; cbn [zeros String.length]; congruence. Qed.

End StringFacts.

(** ** Paths *)

Section PathFacts.

Lemma prefix_cons (a b : ascii) (s t : string) :
  String.prefix (String a s) (String b t) = true -> a = b /\ String.prefix s t = true.
Proof.
  cbn [String.prefix]. destruct (ascii_dec a b); [now split | discriminate].
Qed.

Lemma prefix_cons_ne (a b : ascii) (s t : string) :
  a <> b -> String.prefix (String a s) (String b t) = false.
Proof. intros H. cbn [String.prefix]. now destruct (ascii_dec a b). Qed.

Lemma path_join_rel (root x : string) :
  String.prefix "/" x = false -> path_join root x = root_prefix root +:+ x.
Proof.
  intros H. unfold path_join, root_prefix. rewrite H.
  destruct root as [|c root]; [reflexivity|].
  destruct (ends_with_sep (String c root)); [reflexivity|].
  now rewrite string_app_assoc.
Qed.

Lemma ends_with_sep_app (s t : string) :
  t <> "" -> ends_with_sep (s +:+ t) = ends_with_sep t.
Proof.
  intros Ht. induction s as [|c s IH]; [reflexivity|].
  cbn [String.append ends_with_sep]. rewrite IH.
  destruct (s +:+ t) eqn:E; [|reflexivity].
  destruct s; cbn in E; congruence.
Qed.

Lemma path_join_nested (root d name : string) :
  String.prefix "/" d = false -> d <> "" -> ends_with_sep d = false ->
  String.prefix "/" name = false ->
  path_join (path_join root d) name = root_prefix root +:+ d +:+ "/" +:+ name.
Proof.
  intros Hd Hne He Hn. rewrite (path_join_rel root d Hd).
  unfold path_join at 1. rewrite Hn, ends_with_sep_app, He by assumption.
  destruct (root_prefix root +:+ d) eqn:E.
  - destruct (root_prefix root); cbn in E; congruence.
  - rewrite <- E. now rewrite string_app_assoc.
Qed.

Lemma unit_name_relative (w : Z) (u : GenUnit) (ext : string) :
  String.prefix "/" (unit_name w u +:+ ext) = false.
Proof. destruct u; reflexivity. Qed.

Lemma unit_name_lacks (c : ascii) (w : Z) (u : GenUnit) :
  c = "/"%char \/ c = "."%char -> lacks c (unit_name w u) = true.
Proof.
  intros Hc. unfold unit_name. rewrite !lacks_app.
  rewrite lacks_format_zero by (destruct Hc as [-> | ->]; reflexivity).
  destruct Hc as [-> | ->]; destruct u; reflexivity.
Qed.

Lemma basename_from_clean (n : string) :
  lacks "/" n = true -> forall cur, basename_from cur n = cur.
Proof.
  induction n as [|c n IH]; intros H cur; [reflexivity|].
  cbn [lacks] in H. apply andb_prop in H. destruct H as [Hc Hn].
  cbn [basename_from]. unfold is_sep.
  apply negb_true_iff in Hc. rewrite Hc. now apply IH.
Qed.

Lemma basename_dir (d n : string) :
  lacks "/" n = true -> forall cur, basename_from cur (d +:+ String "/" n) = n.
Proof.
  intros Hn. induction d as [|c d IH]; intros cur.
  - cbn [String.append basename_from]. unfold is_sep. rewrite Ascii.eqb_refl.
    now apply basename_from_clean.
  - cbn [String.append basename_from]. destruct (is_sep c); apply IH.
Qed.

(** Replacing the extension leaves the separators where they are: no
    occurrence of [".cpp"] contains one. *)
Lemma replace_keeps_dir (n d : string) :
  forall skip, clear_run skip d = true ->
  exists d', replace_go ".cpp" ".o" skip (d +:+ String "/" n)
             = d' +:+ String "/" (replace ".cpp" ".o" n).
Proof.
  induction d as [|c d IH]; intros skip Hrun.
  - destruct skip as [|k]; [|discriminate]. exists "".
    cbn [String.append replace_go]. now rewrite prefix_cons_ne by discriminate.
  - destruct skip as [|k].
    + cbn [String.append replace_go].
      destruct (String.prefix ".cpp" (String c (d +:+ String "/" n))) eqn:E.
      * assert (Hd : clear_run 3 d = true).
        { apply prefix_cons in E. destruct E as [_ E].
          destruct d as [|c1 d]; [cbn in E; discriminate|].
          apply prefix_cons in E. destruct E as [<- E].
          destruct d as [|c2 d]; [cbn in E; discriminate|].
          apply prefix_cons in E. destruct E as [<- E].
          destruct d as [|c3 d]; [cbn in E; discriminate|].
          apply prefix_cons in E. destruct E as [<- E].
          reflexivity. }
        destruct (IH 3%nat Hd) as [d' Hd'].
        exists (".o" +:+ d'). change (String.length ".cpp" - 1)%nat with 3%nat.
        rewrite Hd'. now rewrite string_app_assoc.
      * destruct (IH 0%nat eq_refl) as [d' Hd'].
        exists (String c d'). now rewrite Hd'.
    + cbn [clear_run] in Hrun. apply andb_prop in Hrun. destruct Hrun as [_ Hrun].
      cbn [String.append replace_go]. now apply IH.
Qed.

Lemma replace_extension (nm : string) :
  lacks "." nm = true -> replace ".cpp" ".o" (nm +:+ ".cpp") = nm +:+ ".o".
Proof.
  unfold replace. induction nm as [|c nm IH]; intros H; [reflexivity|].
  cbn [lacks] in H. apply andb_prop in H. destruct H as [Hc Hn].
  apply negb_true_iff, Ascii.eqb_neq in Hc.
  cbn [String.append replace_go]. rewrite prefix_cons_ne by congruence.
  now rewrite IH.
Qed.

(** The object of a generated unit: the base name of its source with the
    extension replaced, under [obj]. *)
Lemma obj_of_unit_source (options : Options) (u : GenUnit) :
  get_obj_file_path options
    (unit_source (output_directory options) (get_src_name_padding options) u)
  = unit_object (output_directory options) (get_src_name_padding options) u.
Proof.
  set (root := output_directory options). set (w := get_src_name_padding options).
  unfold get_obj_file_path, unit_source, unit_object,
    get_obj_directory, get_build_directory. fold root.
  assert (Hslash : lacks "/" (unit_name w u +:+ ".o") = true).
  { rewrite lacks_app, unit_name_lacks by (now left). reflexivity. }
  assert (Hbase : basename (replace ".cpp" ".o"
                    (path_join root ("src/" +:+ unit_name w u +:+ ".cpp")))
                  = unit_name w u +:+ ".o").
  { rewrite path_join_rel by reflexivity.
    change ("src/" +:+ unit_name w u +:+ ".cpp")
      with ("src" +:+ String "/" (unit_name w u +:+ ".cpp")).
    rewrite <- string_app_assoc. unfold replace at 1.
    destruct (replace_keeps_dir (unit_name w u +:+ ".cpp")
                (root_prefix root +:+ "src") 0%nat eq_refl) as [d' ->].
    rewrite replace_extension by (apply unit_name_lacks; now right).
    unfold basename. now apply basename_dir. }
  rewrite Hbase.
  rewrite path_join_nested;
    [| reflexivity | discriminate | reflexivity | apply unit_name_relative].
  now rewrite path_join_rel by reflexivity.
Qed.

Lemma source_path_of_unit (options : Options) (u : GenUnit) :
  get_source_file_path options (unit_index u) (unit_role u)
  = unit_source (output_directory options) (get_src_name_padding options) u.
Proof.
  unfold get_source_file_path, get_src_directory, get_build_directory, unit_source.
  rewrite path_join_nested;
    [| reflexivity | discriminate | reflexivity | ].
  - rewrite path_join_rel by reflexivity. unfold unit_name.
    rewrite !string_app_assoc. reflexivity.
  - change (unit_role u +:+ "_" +:+ format_zero (get_src_name_padding options)
              (unit_index u) +:+ ".cpp")
      with (unit_role u +:+ "_" +:+ (format_zero (get_src_name_padding options)
              (unit_index u) +:+ ".cpp")).
    destruct u; reflexivity.
Qed.

Lemma archive_path_of_index (options : Options) (n j : Z) :
  get_num_libraries_to_build options = Ok n ->
  get_lib_file_path options j
  = Ok (archive_path (output_directory options) (len (str n)) j).
Proof.
  intros Hn. unfold get_lib_file_path, get_lib_name_padding, get_lib_directory,
    get_build_directory, archive_path.
  rewrite Hn. cbn [result_bind]. f_equal.
  rewrite path_join_nested; [| reflexivity | discriminate | reflexivity | reflexivity].
  now rewrite path_join_rel by reflexivity.
Qed.

Lemma exe_path_of_root (options : Options) :
  get_main_exe options = executable_path (output_directory options).
Proof.
  unfold get_main_exe, get_get_bin_file_path, get_bin_directory,
    get_build_directory, executable_path.
  rewrite path_join_nested; [| reflexivity | discriminate | reflexivity | reflexivity].
  now rewrite path_join_rel by reflexivity.
Qed.

End PathFacts.

(** ** Correctly rounded division and its ceiling *)

Section Rounding.

Lemma round_half_even_le (n d k : Z) :
  0 < d -> n <= k * d -> round_half_even n d <= k.
Proof.
  intros Hd Hn. unfold round_half_even.
  pose proof (Z.div_mod n d ltac:(lia)) as E.
  pose proof (Z.mod_pos_bound n d Hd) as B.
  destruct (Z.ltb_spec (2 * (n mod d)) d); [nia|].
  destruct (Z.ltb_spec d (2 * (n mod d))); [nia|].
  destruct (Z.even (n / d)); nia.
Qed.

Lemma round_half_even_ge (n d k : Z) :
  0 < d -> k * d <= n -> k <= round_half_even n d.
Proof.
  intros Hd Hn. unfold round_half_even.
  pose proof (Z.div_mod n d ltac:(lia)) as E.
  pose proof (Z.mod_pos_bound n d Hd) as B.
  destruct (Z.ltb_spec (2 * (n mod d)) d); [nia|].
  destruct (Z.ltb_spec d (2 * (n mod d))); [nia|].
  destruct (Z.even (n / d)); nia.
Qed.

Lemma round_half_even_near (n d : Z) :
  0 < d -> 2 * n - d <= 2 * (round_half_even n d * d) <= 2 * n + d.
Proof.
  intros Hd. unfold round_half_even.
  pose proof (Z.div_mod n d ltac:(lia)) as E.
  pose proof (Z.mod_pos_bound n d Hd) as B.
  destruct (Z.ltb_spec (2 * (n mod d)) d); [nia|].
  destruct (Z.ltb_spec d (2 * (n mod d))); [nia|].
  destruct (Z.even (n / d)); nia.
Qed.

Lemma ceil_div_bounds (a b : Z) :
  0 < b -> (ceil_div a b - 1) * b < a <= ceil_div a b * b.
Proof.
  intros Hb. unfold ceil_div.
  pose proof (Z.div_mod (- a) b ltac:(lia)) as E.
  pose proof (Z.mod_pos_bound (- a) b Hb) as B. nia.
Qed.

Lemma ceil_div_unique (a b c : Z) :
  0 < b -> (c - 1) * b < a <= c * b -> ceil_div a b = c.
Proof.
  intros Hb Hc. pose proof (ceil_div_bounds a b Hb). nia.
Qed.

Lemma quotient_exponent_lower (a b : Z) :
  0 < a -> 0 < b ->
  b * 2 ^ Z.max 0 (quotient_exponent a b)
  <= a * 2 ^ Z.max 0 (- quotient_exponent a b).
Proof.
  intros Ha Hb. unfold quotient_exponent.
  destruct (Z.leb_spec b a) as [Hle|Hlt].
  - assert (Hq : 0 < a / b) by (apply Z.div_str_pos; lia).
    pose proof (Z.log2_nonneg (a / b)) as Hl.
    pose proof (Z.log2_spec (a / b) Hq) as [Hs _].
    pose proof (Z.mul_div_le a b Hb) as Hm.
    rewrite !Z.max_r by lia. rewrite Z.max_l by lia. change (2 ^ 0) with 1. nia.
  - set (q := (b + a - 1) / a).
    assert (Hq : 1 < q).
    { assert (2 <= q); [|lia]. unfold q. apply Z.div_le_lower_bound; lia. }
    assert (Hc : b <= a * q).
    { unfold q. pose proof (Z.div_mod (b + a - 1) a ltac:(lia)).
      pose proof (Z.mod_pos_bound (b + a - 1) a Ha). lia. }
    pose proof (Z.log2_up_spec q Hq) as [_ Hs].
    pose proof (Z.log2_up_pos q Hq) as Hp.
    rewrite Z.max_l by lia. rewrite Z.opp_involutive, Z.max_r by lia.
    change (2 ^ 0) with 1. nia.
Qed.

End Rounding.

Section FloatCeiling.

Lemma quotient_exponent_le_52 (a b : Z) :
  0 < a < 2 ^ 53 -> 0 < b -> quotient_exponent a b <= 52.
Proof.
  intros [Ha Ha'] Hb. unfold quotient_exponent.
  destruct (Z.leb_spec b a) as [Hle|Hlt].
  - assert (Hq : a / b <= a) by (apply Z.div_le_upper_bound; nia).
    pose proof (Z.log2_le_mono _ _ Hq) as Hm.
    apply Z.log2_lt_pow2 in Ha'; lia.
  - pose proof (Z.log2_up_nonneg ((b + a - 1) / a)). lia.
Qed.

Lemma quotient_exponent_ge_min (a b : Z) :
  0 < a -> 0 < b <= 2 ^ 1022 -> -1022 <= quotient_exponent a b.
Proof.
  intros Ha [Hb Hb']. unfold quotient_exponent.
  destruct (Z.leb_spec b a) as [Hle|Hlt].
  - pose proof (Z.log2_nonneg (a / b)). lia.
  - assert (Hq : (b + a - 1) / a <= b) by (apply Z.div_le_upper_bound; nia).
    assert (Hq0 : 0 < (b + a - 1) / a) by (apply Z.div_str_pos; lia).
    assert (Hq' : (b + a - 1) / a <= 2 ^ 1022) by lia.
    apply Z.log2_up_le_pow2 in Hq'; lia.
Qed.

(** Below [2 ^ 53] the scaled quotient has a non-positive exponent, and the
    ceiling of the float is the ceiling of its mantissa over [2 ^ - s]. *)
Lemma true_divide_small (a b : Z) :
  0 < a < 2 ^ 53 -> 0 < b ->
  let s := Z.max (quotient_exponent a b - 52) (-1074) in
  let m := round_half_even (a * 2 ^ (- s)) b in
  s <= 0 /\
  result_bind (true_divide a b) (fun q => Ok (ceil q)) = Ok (ceil_div m (2 ^ (- s))).
Proof.
  intros Ha Hb s m.
  pose proof (quotient_exponent_le_52 a b Ha Hb) as He.
  assert (Hs : s <= 0) by (unfold s; lia).
  split; [exact Hs|].
  unfold true_divide.
  destruct (Z.eqb_spec b 0) as [?|_]; [lia|].
  destruct (Z.eqb_spec a 0) as [?|_]; [lia|].
  rewrite !Z.abs_eq by lia. fold s.
  replace (Z.max 0 (- s)) with (- s) by lia.
  replace (Z.max 0 s) with 0 by lia.
  rewrite Z.pow_0_r, Z.mul_1_r. fold m.
  rewrite (Z.sgn_pos a), (Z.sgn_pos b) by lia.
  assert (HK : 0 < 2 ^ (- s)) by (apply Z.pow_pos_nonneg; lia).
  assert (Hc : 0 < ceil_div a b <= a).
  { pose proof (ceil_div_bounds a b Hb). nia. }
  assert (Hm : 0 <= m <= ceil_div a b * 2 ^ (- s)).
  { split.
    - apply round_half_even_ge; nia.
    - apply round_half_even_le; [lia|]. pose proof (ceil_div_bounds a b Hb). nia. }
  destruct (Z.leb_spec 0 s) as [H0|H0].
  - assert (E1 : 2 ^ s = 1) by (replace s with 0 by lia; reflexivity).
    assert (E2 : 2 ^ (- s) = 1) by (replace (- s) with 0 by lia; reflexivity).
    rewrite E1. rewrite E2 in Hm |- *.
    destruct (Z.leb_spec (2 ^ 1024) (m * 1)) as [Hov|_].
    + exfalso. assert (2 ^ 53 < 2 ^ 1024) by (apply Z.pow_lt_mono_r; lia). lia.
    + cbn [andb result_bind]. unfold ceil. cbn [expo mant].
      destruct (Z.leb_spec 0 s); [|lia]. rewrite E1.
      f_equal. unfold ceil_div. rewrite Z.div_1_r. lia.
  - cbn [andb result_bind]. unfold ceil. cbn [expo mant].
    destruct (Z.leb_spec 0 s); [lia|]. f_equal. unfold ceil_div. f_equal. f_equal. lia.
Qed.

Lemma pow2_split (e : Z) :
  e <= 52 -> 2 ^ (52 - e) * 2 ^ Z.max 0 e = 2 ^ 52 * 2 ^ Z.max 0 (- e).
Proof.
  intros He. rewrite <- !Z.pow_add_r by lia. f_equal. lia.
Qed.

(** For a leaf count below [2 ^ 53] and a capacity of at most [2 ^ 1022]
    the float computation gives the exact ceiling. *)
Lemma true_divide_ceil_exact (a b : Z) :
  0 < a < 2 ^ 53 -> 0 < b <= 2 ^ 1022 ->
  result_bind (true_divide a b) (fun q => Ok (ceil q)) = Ok (ceil_div a b).
Proof.
  intros Ha Hb.
  destruct (true_divide_small a b Ha ltac:(lia)) as [Hs ->].
  f_equal.
  pose proof (quotient_exponent_le_52 a b Ha ltac:(lia)) as He.
  pose proof (quotient_exponent_ge_min a b ltac:(lia) Hb) as He'.
  pose proof (quotient_exponent_lower a b ltac:(lia) ltac:(lia)) as Hl.
  pose proof (pow2_split _ He) as Hp.
  replace (Z.max (quotient_exponent a b - 52) (-1074))
    with (quotient_exponent a b - 52) in * by lia.
  replace (- (quotient_exponent a b - 52)) with (52 - quotient_exponent a b) by lia.
  set (K := 2 ^ (52 - quotient_exponent a b)) in *.
  set (X := 2 ^ Z.max 0 (quotient_exponent a b)) in *.
  set (Y := 2 ^ Z.max 0 (- quotient_exponent a b)) in *.
  assert (HK : 0 < K) by (apply Z.pow_pos_nonneg; lia).
  assert (HX : 0 < X) by (apply Z.pow_pos_nonneg; lia).
  assert (HY : 0 < Y) by (apply Z.pow_pos_nonneg; lia).
  assert (H53 : 2 ^ 53 = 2 * 2 ^ 52) by reflexivity.
  set (T := 2 ^ 52) in *.
  assert (HbK : b < 2 * K) by nia.
  pose proof (ceil_div_bounds a b ltac:(lia)) as Hc.
  set (c := ceil_div a b) in *.
  pose proof (round_half_even_near (a * K) b ltac:(lia)) as Hn.
  assert (Hle : round_half_even (a * K) b <= c * K)
    by (apply round_half_even_le; nia).
  set (m := round_half_even (a * K) b) in *.
  apply ceil_div_unique; [lia|]. split; [|lia].
  assert (2 * ((c - 1) * K * b) < 2 * (m * b)) by nia. nia.
Qed.

Lemma true_divide_ceil_le (a b : Z) :
  0 < a < 2 ^ 53 -> 0 < b ->
  exists n, result_bind (true_divide a b) (fun q => Ok (ceil q)) = Ok n
            /\ 0 <= n <= ceil_div a b.
Proof.
  intros Ha Hb.
  destruct (true_divide_small a b Ha Hb) as [Hs ->].
  eexists; split; [reflexivity|].
  set (K := 2 ^ (- Z.max (quotient_exponent a b - 52) (-1074))).
  assert (HK : 0 < K) by (apply Z.pow_pos_nonneg; lia).
  pose proof (ceil_div_bounds a b Hb) as Hc.
  assert (Hm : 0 <= round_half_even (a * K) b <= ceil_div a b * K).
  { split.
    - apply round_half_even_ge; nia.
    - apply round_half_even_le; [lia|]. nia. }
  pose proof (ceil_div_bounds (round_half_even (a * K) b) K HK). nia.
Qed.

End FloatCeiling.

(** ** The number of libraries *)

Section LibraryCount.

Variable options : Options.
Local Abbreviation a := (count_of_leaf_source_files options).
Local Abbreviation b := (library_object_count options).

Lemma num_libraries_zero_capacity :
  b = 0 -> get_num_libraries_to_build options = Raise ZeroDivisionError.
Proof.
  unfold get_num_libraries_to_build, true_divide. now intros ->.
Qed.

Lemma num_libraries_zero_count :
  a = 0 -> b <> 0 -> get_num_libraries_to_build options = Ok 0.
Proof.
  unfold get_num_libraries_to_build, true_divide. intros -> Hb.
  destruct (Z.eqb_spec b 0); [contradiction | reflexivity].
Qed.

Lemma num_libraries_exact :
  0 <= a < 2 ^ 53 -> 1 <= b <= 2 ^ 1022 ->
  get_num_libraries_to_build options = Ok (ceil_div a b).
Proof.
  intros Ha Hb. destruct (Z.eq_dec a 0) as [E|E].
  - rewrite num_libraries_zero_count by lia. rewrite E. unfold ceil_div.
    now rewrite Z.div_0_l by lia.
  - apply true_divide_ceil_exact; lia.
Qed.

Lemma num_libraries_le :
  0 <= a < 2 ^ 53 -> 1 <= b ->
  exists n, get_num_libraries_to_build options = Ok n /\ 0 <= n <= ceil_div a b.
Proof.
  intros Ha Hb. destruct (Z.eq_dec a 0) as [E|E].
  - exists 0. rewrite num_libraries_zero_count by lia. split; [reflexivity|].
    rewrite E. unfold ceil_div. rewrite Z.div_0_l by lia. lia.
  - apply true_divide_ceil_le; lia.
Qed.

Lemma num_libraries_nonpos (n : Z) :
  a <= 0 -> 1 <= b -> get_num_libraries_to_build options = Ok n -> n <= 0.
Proof.
  intros Ha Hb. unfold get_num_libraries_to_build, true_divide.
  destruct (Z.eqb_spec b 0); [lia|].
  destruct (Z.eqb_spec a 0) as [E|E].
  - cbn [result_bind]. intros [= <-]. unfold ceil. cbn [expo mant].
    change (0 <=? 0) with true. cbv iota. lia.
  - set (e := Z.max _ _). set (m := round_half_even _ _).
    assert (Hm : 0 <= m).
    { apply round_half_even_ge.
      - assert (0 < 2 ^ Z.max 0 e) by (apply Z.pow_pos_nonneg; lia). nia.
      - assert (0 < 2 ^ Z.max 0 (- e)) by (apply Z.pow_pos_nonneg; lia). nia. }
    destruct ((0 <=? e) && (2 ^ 1024 <=? m * 2 ^ e)); [discriminate|].
    cbn [result_bind]. intros [= <-]. unfold ceil. cbn [expo mant].
    rewrite (Z.sgn_neg a), (Z.sgn_pos b) by lia.
    destruct (Z.leb_spec 0 e).
    + assert (0 < 2 ^ e) by (apply Z.pow_pos_nonneg; lia). nia.
    + assert (0 < 2 ^ (- e)) by (apply Z.pow_pos_nonneg; lia).
      assert (0 <= (- (-1 * 1 * m)) / 2 ^ (- e)) by (apply Z.div_pos; lia). lia.
Qed.

End LibraryCount.

(** ** Running the monads *)

Section Running.

Lemma concat_empty_cons (x : string) (xs : list string) :
  String.concat "" (x :: xs) = x +:+ String.concat "" xs.
Proof.
  destruct xs as [|y xs]; cbn [String.concat].
  - now rewrite string_app_nil_r.
  - reflexivity.
Qed.

Lemma concat_empty_app (xs ys : list string) :
  String.concat "" (xs ++ ys) = String.concat "" xs +:+ String.concat "" ys.
Proof.
  induction xs as [|x xs IH]; [reflexivity|].
  rewrite <- app_comm_cons, !concat_empty_cons, IH. now rewrite string_app_assoc.
Qed.

Lemma w_for_run {A : Type} (l : list A) (body : A -> Writer unit)
    (text : A -> string) :
  (forall x buf, body x buf = (tt, buf +:+ text x)) ->
  forall buf, w_for l body buf = (tt, buf +:+ String.concat "" (map text l)).
Proof.
  intros Hbody. induction l as [|x l IH]; intros buf.
  - cbn. now rewrite string_app_nil_r.
  - cbn [w_for map]. unfold w_bind. rewrite Hbody, IH, concat_empty_cons.
    now rewrite string_app_assoc.
Qed.

Lemma replay_app (l1 l2 : list Action) (fs : FileSystem) :
  replay (l1 ++ l2) fs = replay l2 (replay l1 fs).
Proof. unfold replay. apply foldl_app. Qed.

Lemma gen_for_run {A B : Type} (l : list A) (f : A -> Gen B)
    (g : A -> B) (act : A -> Action) :
  (forall x fs, f x fs = (Ok (g x), perform fs (act x))) ->
  forall fs, gen_for l f fs = (Ok (map g l), replay (map act l) fs).
Proof.
  intros Hf. induction l as [|x l IH]; intros fs; [reflexivity|].
  cbn [gen_for map]. unfold gen_bind at 1. rewrite Hf.
  unfold gen_bind. now rewrite IH.
Qed.

Lemma result_map_ok {A B : Type} (l : list A) (f : A -> result B) (g : A -> B) :
  (forall x, x ∈ l -> f x = Ok (g x)) -> result_map f l = Ok (map g l).
Proof.
  induction l as [|x l IH]; intros Hf; [reflexivity|].
  cbn [result_map map]. rewrite Hf by constructor. cbn [result_bind].
  rewrite IH; [reflexivity|]. intros y Hy. apply Hf. now constructor.
Qed.

End Running.

(** ** What each generator writes *)

Section Generators.

Lemma leaf_source_path (o : Options) (i : Z) :
  get_source_file_path o i "src"
  = unit_source (output_directory o) (get_src_name_padding o) (Leaf i).
Proof. exact (source_path_of_unit o (Leaf i)). Qed.

Lemma library_source_path (o : Options) (j : Z) :
  get_source_file_path o j "lib"
  = unit_source (output_directory o) (get_src_name_padding o) (Library j).
Proof. exact (source_path_of_unit o (Library j)). Qed.

Lemma root_source_path (o : Options) :
  get_source_file_path o 0 "main"
  = unit_source (output_directory o) (get_src_name_padding o) Root.
Proof. exact (source_path_of_unit o Root). Qed.

Variable options : Options.
Local Abbreviation root := (output_directory options).
Local Abbreviation width := (get_src_name_padding options).

Lemma generate_obj_source_file_run (i : Z) (fs : FileSystem) :
  generate_obj_source_file options i fs
  = (Ok (unit_source root width (Leaf i)),
     put_file (unit_source root width (Leaf i)) (leaf_contents width i) fs).
Proof.
  unfold generate_obj_source_file.
  rewrite leaf_source_path. reflexivity.
Qed.

Lemma generate_obj_source_files_run (fs : FileSystem) :
  generate_obj_source_files options fs
  = (Ok (map (fun i => unit_source root width (Leaf i))
             (range (count_of_leaf_source_files options))),
     replay (leaf_requests options) fs).
Proof.
  unfold generate_obj_source_files, leaf_requests.
  apply (gen_for_run _ _ (fun i => unit_source root width (Leaf i))
           (fun i => Write (unit_source root width (Leaf i)) (leaf_contents width i))).
  intros i fs'. apply generate_obj_source_file_run.
Qed.

Lemma indices_spec_range (j : Z) :
  get_lib_src_indices options j
  = spec_range (count_of_leaf_source_files options) (library_object_count options) j.
Proof. unfold get_lib_src_indices, spec_range. f_equal. f_equal. lia. Qed.

Variable n : Z.
Hypothesis Hn : get_num_libraries_to_build options = Ok n.

Lemma lib_name_padding_ok : get_lib_name_padding options = Ok (len (str n)).
Proof. unfold get_lib_name_padding. now rewrite Hn. Qed.

Lemma generate_lib_source_file_run (j : Z) (fs : FileSystem) :
  generate_lib_source_file options j fs
  = (Ok (unit_source root width (Library j)),
     perform fs (library_request options n j)).
Proof.
  unfold generate_lib_source_file, library_request.
  rewrite library_source_path.
  unfold gen_bind, lift. rewrite lib_name_padding_ok.
  rewrite indices_spec_range.
  destruct (spec_range _ _ j) as [s e]. cbn [fst snd perform].
  unfold with_open, w_bind, fwrite.
  rewrite (w_for_run _ _ (fun k => "int src_" +:+ format_zero
             (get_src_name_padding options) k +:+ "();" +:+ nl)) by reflexivity.
  rewrite (w_for_run _ _ (fun k => "  ret += src_" +:+ format_zero
             (get_src_name_padding options) k +:+ "();" +:+ nl)) by reflexivity.
  unfold gen_ret. f_equal. f_equal. unfold library_unit_text.
  rewrite !string_app_assoc. reflexivity.
Qed.

Lemma generate_lib_source_files_run (fs : FileSystem) :
  generate_lib_source_files options fs
  = (Ok (map (fun j => unit_source root width (Library j)) (range n)),
     replay (map (library_request options n) (range n)) fs).
Proof.
  unfold generate_lib_source_files, gen_bind, lift.
  rewrite Hn, lib_name_padding_ok.
  apply (gen_for_run _ _ (fun j => unit_source root width (Library j))).
  intros j fs'. apply generate_lib_source_file_run.
Qed.

Lemma generate_main_source_file_run (fs : FileSystem) :
  generate_main_source_file options fs
  = (Ok (unit_source root width Root), perform fs (root_request options n)).
Proof.
  unfold generate_main_source_file, root_request.
  rewrite root_source_path.
  unfold gen_bind, lift. rewrite Hn, lib_name_padding_ok. cbn [perform].
  unfold with_open, w_bind, fwrite.
  rewrite (w_for_run _ _ (fun j => "int lib_" +:+ format_zero
             (len (str n)) j +:+ "();" +:+ nl)) by reflexivity.
  rewrite (w_for_run _ _ (fun j => "  ret += lib_" +:+ format_zero
             (len (str n)) j +:+ "();" +:+ nl)) by reflexivity.
  unfold gen_ret. f_equal. f_equal. unfold root_unit_text.
  rewrite !string_app_assoc. reflexivity.
Qed.

Lemma generate_source_files_run (fs : FileSystem) :
  generate_source_files options fs
  = (Ok (map (fun i => unit_source root width (Leaf i))
             (range (count_of_leaf_source_files options)),
         map (fun j => unit_source root width (Library j)) (range n),
         [unit_source root width Root]),
     replay (leaf_requests options ++ map (library_request options n) (range n)
             ++ [root_request options n]) fs).
Proof.
  unfold generate_source_files, generate_main_source_files, gen_bind.
  rewrite generate_obj_source_files_run, generate_lib_source_files_run,
    generate_main_source_file_run.
  unfold gen_ret. now rewrite !replay_app.
Qed.

End Generators.

(** ** The build plan *)

Section BuildPlan.

Lemma slice_range {A : Type} (f : Z -> A) (a s e : Z) :
  0 <= a -> 0 <= s -> 0 <= e <= a ->
  slice (map f (range a)) s e = map f (range2 s e).
Proof.
  intros Ha Hs He. unfold slice, range, range2.
  rewrite length_map, length_seqZ, Z2Nat.id by lia.
  destruct (Z.ltb_spec s 0); [lia|]. destruct (Z.ltb_spec e 0); [lia|].
  rewrite (Z.min_l e a) by lia.
  destruct (Z.le_gt_cases s e) as [Hse|Hse].
  - rewrite (Z.min_l s a) by lia.
    replace a with (s + ((e - s) + (a - e))) at 1 by lia.
    rewrite seqZ_app, (seqZ_app (0 + s)) by lia.
    rewrite !map_app.
    rewrite drop_app_length' by (rewrite length_map, length_seqZ; lia).
    rewrite take_app_length' by (rewrite length_map, length_seqZ; lia).
    reflexivity.
  - rewrite (seqZ_nil s) by lia.
    replace (Z.to_nat (e - Z.min s a)) with 0%nat by lia. reflexivity.
Qed.

Lemma index_range {A : Type} (f : Z -> A) (n j : Z) :
  0 <= j < n -> index (map f (range n)) j = Ok (f j).
Proof.
  intros Hj. unfold index, range.
  destruct (Z.ltb_spec j 0); [lia|]. destruct (Z.ltb_spec j 0); [lia|].
  change (map f (seqZ 0 n)) with (f <$> seqZ 0 n).
  rewrite list_lookup_fmap, lookup_seqZ_lt by lia.
  cbn. f_equal. f_equal. lia.
Qed.

Variable options : Options.
Local Abbreviation root := (output_directory options).
Local Abbreviation width := (get_src_name_padding options).
Local Abbreviation count := (count_of_leaf_source_files options).
Local Abbreviation capacity := (library_object_count options).

Variable n : Z.
Hypothesis Hn : get_num_libraries_to_build options = Ok n.
Hypothesis Hcap : 1 <= capacity.

Local Abbreviation leaf_sources :=
  (map (fun i => unit_source root width (Leaf i)) (range count)).
Local Abbreviation lib_sources :=
  (map (fun j => unit_source root width (Library j)) (range n)).

Lemma split_object_files_run :
  split_object_files_into_libraries options leaf_sources lib_sources
  = Ok (map (fun j =>
               let r := spec_range count capacity j in
               (archive_path root (len (str n)) j,
                (map (fun k => unit_source root width (Leaf k)) (range2 r.1 r.2)
                 ++ [unit_source root width (Library j)])%list))
            (range n)).
Proof.
  unfold split_object_files_into_libraries. rewrite Hn. cbn [result_bind].
  apply result_map_ok. intros j Hj. apply elem_of_seqZ in Hj.
  rewrite (archive_path_of_index options n j Hn). cbn [result_bind].
  rewrite indices_spec_range.
  rewrite index_range by lia. cbn [result_bind].
  assert (Hc : 0 <= count).
  { destruct (Z.le_gt_cases 0 count) as [?|Hneg]; [assumption|].
    pose proof (num_libraries_nonpos options n ltac:(lia) Hcap Hn). lia. }
  unfold spec_range. cbn [fst snd].
  rewrite slice_range by nia. reflexivity.
Qed.

Lemma compile_line (u : GenUnit) :
  "build " +:+ get_obj_file_path options (unit_source root width u) +:+ ": cc "
    +:+ unit_source root width u +:+ nl
  = render_edge (compile_edge root width u).
Proof.
  unfold render_edge, compile_edge. cbn [edge_rule edge_output edge_inputs].
  rewrite (obj_of_unit_source options u). reflexivity.
Qed.

Lemma sources_are_units :
  (leaf_sources ++ lib_sources ++ [unit_source root width Root])%list
  = map (unit_source root width) (units count n).
Proof.
  unfold units. rewrite !map_app, !map_map. reflexivity.
Qed.

Lemma archive_line (j : Z) :
  let r := spec_range count capacity j in
  "build " +:+ archive_path root (len (str n)) j +:+ ": archive "
    +:+ join " " (map (get_obj_file_path options)
                    (map (fun k => unit_source root width (Leaf k)) (range2 r.1 r.2)
                     ++ [unit_source root width (Library j)]))
    +:+ nl
  = render_edge (archive_edge options (len (str n)) j).
Proof.
  intros r. unfold render_edge, archive_edge.
  cbn [edge_rule edge_output edge_inputs].
  rewrite map_app, map_map. cbn [map].
  rewrite (obj_of_unit_source options (Library j)).
  rewrite (map_ext _ (fun k => unit_object root width (Leaf k)))
    by (intros k; apply (obj_of_unit_source options (Leaf k))).
  reflexivity.
Qed.

Lemma generate_ninja_file_run (fs : FileSystem) :
  generate_ninja_file options leaf_sources lib_sources
    [unit_source root width Root] fs
  = (Ok tt, perform fs (plan_request options n)).
Proof.
  unfold generate_ninja_file, gen_bind, lift.
  rewrite split_object_files_run. unfold with_open, plan_request.
  cbn [perform]. rewrite sources_are_units.
  unfold w_bind, section, puts, fwrite, w_bind.
  rewrite (w_for_run _ _ (fun src_file =>
             ("build " +:+ get_obj_file_path options src_file +:+ ": cc "
              +:+ src_file) +:+ nl)) by reflexivity.
  rewrite (w_for_run _ _ (fun lib : string * list string =>
             ("build " +:+ lib.1 +:+ ": archive "
              +:+ join " " (map (get_obj_file_path options) lib.2)) +:+ nl))
    by (intros [lib_name srcs] buf; reflexivity).
  rewrite !map_map. cbn [fst snd map].
  rewrite (map_ext _ (fun u => render_edge (compile_edge root width u)))
    by (intros u; rewrite <- compile_line, !string_app_assoc; reflexivity).
  rewrite (map_ext (fun j => _ +:+ nl)
             (fun j => render_edge (archive_edge options (len (str n)) j)))
    by (intros j; rewrite <- archive_line, !string_app_assoc; reflexivity).
  rewrite (obj_of_unit_source options Root).
  unfold get_ninja_file_path, get_build_directory, plan_path.
  f_equal. f_equal. unfold build_plan_text, plan_preamble, render_section,
    render_edge, link_edge. cbn [edge_rule edge_output edge_inputs].
  change (get_get_bin_file_path options "lod") with (get_main_exe options).
  rewrite exe_path_of_root.
  rewrite !string_app_assoc. reflexivity.
Qed.

End BuildPlan.

(** ** The whole generation phase *)

Section WholeRun.

Variable options : Options.

Lemma create_output_dirs_run (fs : FileSystem) :
  create_output_dirs options fs = (Ok tt, replay (dir_requests options) fs).
Proof. reflexivity. Qed.

Lemma main_generate_ok (n : Z) (fs : FileSystem) :
  1 <= library_object_count options ->
  get_num_libraries_to_build options = Ok n ->
  main_generate options fs = (Ok tt, replay (generation_log options n) fs).
Proof.
  intros Hcap Hn. unfold main_generate, gen_bind.
  rewrite create_output_dirs_run, (generate_source_files_run options n Hn).
  rewrite (generate_ninja_file_run options n Hn Hcap).
  unfold generation_log. rewrite !replay_app. reflexivity.
Qed.

Lemma main_generate_raise (e : exn) (fs : FileSystem) :
  get_num_libraries_to_build options = Raise e ->
  main_generate options fs
  = (Raise e, replay (dir_requests options ++ leaf_requests options) fs).
Proof.
  intros Hn. unfold main_generate, gen_bind.
  rewrite create_output_dirs_run.
  unfold generate_source_files, gen_bind.
  rewrite generate_obj_source_files_run.
  unfold generate_lib_source_files, gen_bind, lift. rewrite Hn.
  now rewrite replay_app.
Qed.

End WholeRun.

(** ** Replaying a log *)

Section Replay.

Lemma fs_ext (x y : FileSystem) : dirs x = dirs y -> files x = files y -> x = y.
Proof. destruct x, y; cbn; congruence. Qed.

Lemma files_replay (log : list Action) (p : string) :
  forall fs,
    files (replay log fs) !! p
    = match written log p with
      | Some t => Some t
      | None => files fs !! p
      end.
Proof.
  induction log as [|a log IH]; intros fs; [reflexivity|].
  change (replay (a :: log) fs) with (replay log (perform fs a)).
  rewrite IH. destruct a as [q|q text]; cbn [written perform].
  - reflexivity.
  - destruct (written log p); [reflexivity|].
    unfold put_file; cbn [files].
    destruct (String.eqb_spec q p) as [->|Hne].
    + apply lookup_insert_eq.
    + now apply lookup_insert_ne.
Qed.

Lemma dirs_replay (log : list Action) :
  forall fs, dirs (replay log fs) = requested_dirs log ∪ dirs fs.
Proof.
  induction log as [|a log IH]; intros fs.
  - cbn. now rewrite (left_id_L ∅ (∪)).
  - change (replay (a :: log) fs) with (replay log (perform fs a)).
    rewrite IH. destruct a as [q|q text]; cbn [requested_dirs foldr perform].
    + unfold add_dir; cbn [dirs]. fold (requested_dirs log).
      now rewrite (assoc_L (∪)), (comm_L (∪) (requested_dirs log)).
    + reflexivity.
Qed.

Lemma replay_idempotent (log : list Action) (fs : FileSystem) :
  replay log (replay log fs) = replay log fs.
Proof.
  apply fs_ext.
  - rewrite !dirs_replay. now rewrite (assoc_L (∪)), (idemp_L (∪)).
  - apply map_eq. intros p. rewrite (files_replay log p (replay log fs)).
    rewrite (files_replay log p fs). now destruct (written log p).
Qed.

End Replay.

(** ** Every computation of the script is uniform *)

Section Uniform.

Lemma uniform_ret {A : Type} (a : A) : uniform (gen_ret a).
Proof. exists (Ok a), []. reflexivity. Qed.

Lemma uniform_lift {A : Type} (r : result A) : uniform (lift r).
Proof. exists r, []. reflexivity. Qed.

Lemma uniform_makedirs (p : string) : uniform (makedirs p).
Proof. exists (Ok tt), [Mkdir p]. reflexivity. Qed.

Lemma uniform_with_open {A : Type} (p : string) (body : Writer A) :
  uniform (with_open p body).
Proof.
  unfold uniform, with_open. destruct (body "") as [a text].
  exists (Ok a), [Write p text]. reflexivity.
Qed.

Lemma uniform_bind {A B : Type} (m : Gen A) (k : A -> Gen B) :
  uniform m -> (forall a, uniform (k a)) -> uniform (gen_bind m k).
Proof.
  intros (r & log & Hm) Hk. destruct r as [a|e].
  - destruct (Hk a) as (r' & log' & Hka).
    exists r', (log ++ log')%list. intros fs.
    unfold gen_bind. now rewrite Hm, Hka, replay_app.
  - exists (Raise e), log. intros fs. unfold gen_bind. now rewrite Hm.
Qed.

Lemma uniform_gen_for {A B : Type} (l : list A) (f : A -> Gen B) :
  (forall x, uniform (f x)) -> uniform (gen_for l f).
Proof.
  intros Hf. induction l as [|x l IH]; cbn [gen_for].
  - apply uniform_ret.
  - apply uniform_bind; [apply Hf|]. intros y.
    apply uniform_bind; [apply IH|]. intros ys. apply uniform_ret.
Qed.

Ltac uniform_step :=
  match goal with
  | |- uniform (gen_bind _ _) => apply uniform_bind; [|intros ?]
  | |- uniform (gen_ret _) => apply uniform_ret
  | |- uniform (lift _) => apply uniform_lift
  | |- uniform (makedirs _) => apply uniform_makedirs
  | |- uniform (with_open _ _) => apply uniform_with_open
  | |- uniform (gen_for _ _) => apply uniform_gen_for; intros ?
  end.

Lemma uniform_main_generate (options : Options) : uniform (main_generate options).
Proof.
  unfold main_generate, create_output_dirs. repeat uniform_step.
  - unfold generate_source_files, generate_obj_source_files,
      generate_lib_source_files, generate_main_source_files.
    repeat uniform_step.
    + unfold generate_obj_source_file. repeat uniform_step.
    + unfold generate_lib_source_file. repeat uniform_step.
    + unfold generate_main_source_file. repeat uniform_step.
  - match goal with a : (list string * list string * list string)%type |- _ =>
      destruct a as [[obj lib] main] end.
    unfold generate_ninja_file. repeat uniform_step.
Qed.

End Uniform.

(** ** Distinct artifacts have distinct paths *)

Section Distinct.

Variable root : string.

Lemma unit_source_rel (w : Z) (u : GenUnit) :
  unit_source root w u = root_prefix root +:+ "src/" +:+ unit_name w u +:+ ".cpp".
Proof. unfold unit_source. now rewrite path_join_rel by reflexivity. Qed.

Lemma unit_object_rel (w : Z) (u : GenUnit) :
  unit_object root w u = root_prefix root +:+ "obj/" +:+ unit_name w u +:+ ".o".
Proof. unfold unit_object. now rewrite path_join_rel by reflexivity. Qed.

Lemma archive_path_rel (w j : Z) :
  archive_path root w j = root_prefix root +:+ "lib/lib_" +:+ format_zero w j +:+ ".a".
Proof. unfold archive_path. now rewrite path_join_rel by reflexivity. Qed.

Lemma executable_path_rel : executable_path root = root_prefix root +:+ "bin/lod".
Proof. unfold executable_path. now rewrite path_join_rel by reflexivity. Qed.

Lemma plan_path_rel : plan_path root = root_prefix root +:+ "build.ninja".
Proof. unfold plan_path. now rewrite path_join_rel by reflexivity. Qed.

Lemma string_app_inj_r (a b c : string) : a +:+ c = b +:+ c -> a = b.
Proof.
  revert b. induction a as [|x a IH]; intros [|y b] E; cbn [String.append] in E.
  - reflexivity.
  - exfalso. apply (f_equal String.length) in E.
    cbn [String.length] in E. rewrite string_app_length in E. lia.
  - exfalso. apply (f_equal String.length) in E.
    cbn [String.length] in E. rewrite string_app_length in E. lia.
  - injection E as -> E. f_equal. now apply IH.
Qed.

Lemma unit_name_inj (w : Z) (u v : GenUnit) (ext : string) :
  unit_name w u +:+ ext = unit_name w v +:+ ext -> u = v.
Proof.
  intros E. apply string_app_inj_r in E. unfold unit_name in E.
  destruct u, v; cbn [unit_role unit_index String.append] in E;
    try discriminate; try reflexivity;
    injection E as E; apply format_zero_inj in E; congruence.
Qed.

Ltac relative H :=
  rewrite ?unit_source_rel, ?unit_object_rel, ?archive_path_rel,
    ?executable_path_rel, ?plan_path_rel in H;
  apply (inj (String.app _)) in H; cbn [String.append] in H.

Lemma unit_source_inj (w : Z) (u v : GenUnit) :
  unit_source root w u = unit_source root w v -> u = v.
Proof.
  intros E. relative E. injection E as E. now apply unit_name_inj in E.
Qed.

Lemma unit_object_inj (w : Z) (u v : GenUnit) :
  unit_object root w u = unit_object root w v -> u = v.
Proof.
  intros E. relative E. injection E as E. now apply unit_name_inj in E.
Qed.

Lemma archive_path_inj (w i j : Z) :
  archive_path root w i = archive_path root w j -> i = j.
Proof.
  intros E. relative E. injection E as E.
  apply string_app_inj_r in E. now apply format_zero_inj in E.
Qed.

Lemma source_not_object (w w' : Z) (u v : GenUnit) :
  unit_source root w u <> unit_object root w' v.
Proof. intros E. relative E. discriminate. Qed.

Lemma source_not_archive (w w' j : Z) (u : GenUnit) :
  unit_source root w u <> archive_path root w' j.
Proof. intros E. relative E. discriminate. Qed.

Lemma source_not_executable (w : Z) (u : GenUnit) :
  unit_source root w u <> executable_path root.
Proof. intros E. relative E. discriminate. Qed.

Lemma source_not_plan (w : Z) (u : GenUnit) :
  unit_source root w u <> plan_path root.
Proof. intros E. relative E. discriminate. Qed.

Lemma object_not_archive (w w' j : Z) (u : GenUnit) :
  unit_object root w u <> archive_path root w' j.
Proof. intros E. relative E. discriminate. Qed.

Lemma object_not_executable (w : Z) (u : GenUnit) :
  unit_object root w u <> executable_path root.
Proof. intros E. relative E. discriminate. Qed.

Lemma object_not_plan (w : Z) (u : GenUnit) :
  unit_object root w u <> plan_path root.
Proof. intros E. relative E. discriminate. Qed.

Lemma archive_not_executable (w j : Z) : archive_path root w j <> executable_path root.
Proof. intros E. relative E. discriminate. Qed.

Lemma archive_not_plan (w j : Z) : archive_path root w j <> plan_path root.
Proof. intros E. relative E. discriminate. Qed.

Lemma executable_not_plan : executable_path root <> plan_path root.
Proof. intros E. relative E. discriminate. Qed.

Lemma NoDup_units (a n : Z) : NoDup (units a n).
Proof.
  unfold units, range. change map with (@fmap list _) at 1 2.
  apply NoDup_app. split; [|split].
  - apply NoDup_fmap; [intros x y [= ->]; reflexivity | apply NoDup_seqZ].
  - intros u Hu Hu'. apply list_elem_of_fmap in Hu. destruct Hu as (i & -> & _).
    apply elem_of_app in Hu'. destruct Hu' as [Hu'|Hu'].
    + apply list_elem_of_fmap in Hu'. destruct Hu' as (j & [=] & _).
    + apply list_elem_of_singleton in Hu'. discriminate.
  - apply NoDup_app. split; [|split].
    + apply NoDup_fmap; [intros x y [= ->]; reflexivity | apply NoDup_seqZ].
    + intros u Hu Hu'. apply list_elem_of_fmap in Hu. destruct Hu as (i & -> & _).
      apply list_elem_of_singleton in Hu'. discriminate.
    + apply NoDup_singleton.
Qed.

End Distinct.

(** ** What a log leaves at a path *)

Section Written.

Lemma written_app (l1 l2 : list Action) (p : string) :
  written (l1 ++ l2) p
  = match written l2 p with
    | Some t => Some t
    | None => written l1 p
    end.
Proof.
  induction l1 as [|a l1 IH].
  - cbn. now destruct (written l2 p).
  - rewrite <- app_comm_cons. destruct a as [q|q text]; cbn [written].
    + exact IH.
    + rewrite IH. now destruct (written l2 p).
Qed.

Context {A : Type} (path text : A -> string).

Lemma written_writes_inv (l : list A) (p t : string) :
  written (map (fun x => Write (path x) (text x)) l) p = Some t ->
  exists x, x ∈ l /\ path x = p /\ text x = t.
Proof.
  induction l as [|a l IH]; cbn [map written]; [discriminate|].
  destruct (written _ p) as [t'|] eqn:E.
  - intros [= <-]. destruct (IH eq_refl) as (x & Hx & Hp & Ht).
    exists x. split; [now constructor | now split].
  - destruct (String.eqb_spec (path a) p) as [Hp|_]; [|discriminate].
    intros [= <-]. exists a. split; [constructor | now split].
Qed.

Lemma written_writes_none (l : list A) (p : string) :
  (forall x, x ∈ l -> path x <> p) ->
  written (map (fun x => Write (path x) (text x)) l) p = None.
Proof.
  intros Hne. destruct (written _ p) as [t|] eqn:E; [|reflexivity].
  apply written_writes_inv in E. destruct E as (x & Hx & Hp & _).
  now apply Hne in Hx.
Qed.

Lemma written_writes_some (l : list A) (x : A) :
  x ∈ l -> (forall y, y ∈ l -> path y = path x -> y = x) ->
  written (map (fun x => Write (path x) (text x)) l) (path x) = Some (text x).
Proof.
  induction l as [|a l IH]; intros Hx Hinj; [now apply elem_of_nil in Hx|].
  cbn [map written].
  destruct (written _ (path x)) as [t|] eqn:E.
  - apply written_writes_inv in E. destruct E as (y & Hy & Hp & <-).
    f_equal. f_equal. apply Hinj; [now constructor | assumption].
  - apply elem_of_cons in Hx. destruct Hx as [->|Hx].
    + now rewrite String.eqb_refl.
    + assert (Hc : None = Some (text x)); [|discriminate].
      apply IH; [assumption|]. intros y Hy. apply Hinj. now constructor.
Qed.

End Written.

(** ** The partition below the limits of binary64 *)

Section Partition.

Variables a b : Z.
Hypothesis Hb : 1 <= b.

Lemma owner_exists (k : Z) :
  0 <= k < a ->
  0 <= k / b < ceil_div a b /\ owns (spec_range a b (k / b)) k = true.
Proof.
  intros Hk.
  pose proof (Z.div_mod k b ltac:(lia)) as E.
  pose proof (Z.mod_pos_bound k b ltac:(lia)) as B.
  pose proof (ceil_div_bounds a b ltac:(lia)) as C.
  assert (0 <= k / b) by (apply Z.div_pos; lia).
  split; [nia|].
  unfold owns, spec_range. cbn [fst snd].
  apply andb_true_intro. split; [apply Z.leb_le | apply Z.ltb_lt]; nia.
Qed.

Lemma owner_unique (k i : Z) :
  owns (spec_range a b i) k = true -> i = k / b.
Proof.
  unfold owns, spec_range. cbn [fst snd]. intros H.
  apply andb_prop in H. destruct H as [H1 H2].
  apply Z.leb_le in H1. apply Z.ltb_lt in H2.
  pose proof (Z.div_mod k b ltac:(lia)) as E.
  pose proof (Z.mod_pos_bound k b ltac:(lia)) as B. nia.
Qed.

Lemma owned_is_leaf (k i : Z) :
  0 <= i -> owns (spec_range a b i) k = true -> 0 <= k < a.
Proof.
  unfold owns, spec_range. cbn [fst snd]. intros Hi H.
  apply andb_prop in H. destruct H as [H1 H2].
  apply Z.leb_le in H1. apply Z.ltb_lt in H2. nia.
Qed.

Lemma ranges_contiguous (i : Z) :
  0 <= i -> i + 1 < ceil_div a b ->
  (spec_range a b i).2 = (spec_range a b (i + 1)).1.
Proof.
  intros Hi Hlt. unfold spec_range. cbn [fst snd].
  pose proof (ceil_div_bounds a b ltac:(lia)) as C. nia.
Qed.

Lemma range_nonempty (i : Z) :
  0 <= i < ceil_div a b -> (spec_range a b i).1 < (spec_range a b i).2.
Proof.
  intros Hi. unfold spec_range. cbn [fst snd].
  pose proof (ceil_div_bounds a b ltac:(lia)) as C. nia.
Qed.

Lemma last_range_ends (i : Z) :
  i = ceil_div a b - 1 -> (spec_range a b i).2 = a.
Proof.
  intros ->. unfold spec_range. cbn [fst snd].
  pose proof (ceil_div_bounds a b ltac:(lia)) as C. nia.
Qed.

End Partition.

(** * The claims of the specification *)

(** ** The partitioner (C1, C10, C6) *)

(** Below [2 ^ 53] leaves and up to [2 ^ 1022] leaves per library the script
    computes the partition of the specification: [ceil_div] ranges, range [i]
    being [[i * capacity, min ((i + 1) * capacity, leafCount))]; consecutive
    ranges meet, the last one ends at [leafCount], and every leaf belongs to
    exactly one of them. *)
Theorem partition_exact_below_limits (options : Options) :
  let a := count_of_leaf_source_files options in
  let b := library_object_count options in
  0 <= a < 2 ^ 53 -> 1 <= b <= 2 ^ 1022 ->
  partition_ranges options = Ok (spec_partition a b)
  /\ length (spec_partition a b) = Z.to_nat (ceil_div a b)
  /\ (forall i, 0 <= i -> i + 1 < ceil_div a b ->
        (spec_range a b i).2 = (spec_range a b (i + 1)).1)
  /\ (0 < a -> (spec_range a b 0).1 = 0 /\ (spec_range a b (ceil_div a b - 1)).2 = a)
  /\ (forall k, 0 <= k < a ->
        exists i, 0 <= i < ceil_div a b /\ owns (spec_range a b i) k = true
                  /\ forall i', owns (spec_range a b i') k = true -> i' = i)
  /\ (forall i k, 0 <= i -> owns (spec_range a b i) k = true -> 0 <= k < a).
Proof.
  intros a b Ha Hb. subst a b.
  split; [|split; [|split; [|split; [|split]]]].
  - unfold partition_ranges. rewrite (num_libraries_exact options Ha Hb).
    cbn [result_bind]. f_equal. unfold spec_partition. apply map_ext.
    intros i. apply indices_spec_range.
  - unfold spec_partition, range. now rewrite length_map, length_seqZ.
  - intros i Hi Hlt. apply ranges_contiguous; lia.
  - intros Hpos. split.
    + unfold spec_range. cbn [fst]. lia.
    + apply last_range_ends; lia.
  - intros k Hk. exists (k / library_object_count options).
    destruct (owner_exists (count_of_leaf_source_files options)
                (library_object_count options) ltac:(lia) k Hk) as [Hi Ho].
    split; [exact Hi|]. split; [exact Ho|].
    intros i'. apply owner_unique. lia.
  - intros i k Hi Ho. apply (owned_is_leaf (count_of_leaf_source_files options)
             (library_object_count options) ltac:(lia) k i Hi Ho).
Qed.

Lemma partition_exact_below_limits_witness :
  partition_ranges (sample_options 5 2) = Ok [(0, 2); (2, 4); (4, 5)].
Proof.
  destruct (partition_exact_below_limits (sample_options 5 2)) as [H _];
    [cbn; lia | cbn; lia |]. rewrite H. reflexivity.
Defined.

(** C1, at leafCount = 1 and libraryCapacity = 2 ^ 1100: the quotient
    rounds to the float 0.0, so the script counts 0 libraries where the
    exact ceiling is 1; its partition is empty and leaf 0, the only leaf,
    belongs to no range. *)
Theorem float_ceiling_drops_partition :
  let options := sample_options 1 (2 ^ 1100) in
  get_num_libraries_to_build options = Ok 0
  /\ ceil_div 1 (2 ^ 1100) = 1
  /\ partition_ranges options = Ok []
  /\ spec_partition 1 (2 ^ 1100) = [(0, 1)]
  /\ owns (0, 1) 0 = true.
Proof. vm_compute. repeat split. Qed.

(** With at least one leaf, fewer than [2 ^ 53] leaves and a capacity of at
    least 1, the count of libraries is computed and every range of the
    partition holds at least one leaf. *)
Theorem partitions_nonempty_below_limit (options : Options) :
  let a := count_of_leaf_source_files options in
  let b := library_object_count options in
  1 <= a < 2 ^ 53 -> 1 <= b ->
  exists n, get_num_libraries_to_build options = Ok n
            /\ forall j, 0 <= j < n ->
                 (get_lib_src_indices options j).1 < (get_lib_src_indices options j).2.
Proof.
  intros a b Ha Hb. subst a b.
  destruct (num_libraries_le options ltac:(lia) Hb) as (n & Hn & Hle).
  exists n. split; [exact Hn|]. intros j Hj.
  rewrite indices_spec_range. apply range_nonempty; [exact Hb|]. lia.
Qed.


(** ** A capacity of zero (C2) *)

(** C2 as the specification states it fails: with one leaf and a capacity
    of 0 the run raises, but the leaf unit is on disk by then. *)
Lemma zero_capacity_claim_fails :
  ~ claimed_zero_capacity_outcome (sample_options 1 0) empty_fs.
Proof.
  intros [_ H].
  apply (f_equal (fun m : gmap string string => m !! "out/src/src_0.cpp")) in H.
  vm_compute in H. discriminate H.
Qed.

(** C2, amended: with a capacity of 0 the run raises [ZeroDivisionError] when
    it first counts the libraries, which is after the output directories were
    requested and every leaf unit was written.  Each leaf unit holds its
    text, no other path is touched, and so no library unit, no root unit and
    no build plan is created. *)
Theorem zero_capacity_run (options : Options) (fs : FileSystem) :
  let root := output_directory options in
  let width := get_src_name_padding options in
  let fs' := snd (main_generate options fs) in
  library_object_count options = 0 ->
  main_generate options fs
  = (Raise ZeroDivisionError,
     replay (dir_requests options ++ leaf_requests options) fs)
  /\ (forall i, 0 <= i < count_of_leaf_source_files options ->
        files fs' !! unit_source root width (Leaf i) = Some (leaf_contents width i))
  /\ (forall p, (forall i, 0 <= i < count_of_leaf_source_files options ->
                   p <> unit_source root width (Leaf i)) ->
        files fs' !! p = files fs !! p)
  /\ (forall j, files fs' !! unit_source root width (Library j)
                = files fs !! unit_source root width (Library j))
  /\ files fs' !! unit_source root width Root = files fs !! unit_source root width Root
  /\ files fs' !! plan_path root = files fs !! plan_path root.
Proof.
  intros root width fs' Hcap. subst root width fs'.
  rewrite (main_generate_raise options ZeroDivisionError fs
             (num_libraries_zero_capacity options Hcap)).
  cbn [snd].
  assert (Hother : forall p,
            (forall i, 0 <= i < count_of_leaf_source_files options ->
               p <> unit_source (output_directory options)
                      (get_src_name_padding options) (Leaf i)) ->
            files (replay (dir_requests options ++ leaf_requests options) fs) !! p
            = files fs !! p).
  { intros p Hp. rewrite files_replay, written_app.
    unfold leaf_requests. rewrite written_writes_none; [reflexivity|].
    intros i Hi. apply elem_of_seqZ in Hi. intros E. apply (Hp i); [lia | now symmetry]. }
  split; [reflexivity|]. split; [|split; [exact Hother|]].
  - intros i Hi. rewrite files_replay, written_app. unfold leaf_requests.
    rewrite (written_writes_some
               (fun i => unit_source (output_directory options)
                           (get_src_name_padding options) (Leaf i))
               (fun i => leaf_contents (get_src_name_padding options) i)).
    + reflexivity.
    + apply elem_of_seqZ. lia.
    + intros y _ E. apply unit_source_inj in E. congruence.
  - split; [|split].
    + intros j. apply Hother. intros i _ E. apply unit_source_inj in E. discriminate.
    + apply Hother. intros i _ E. apply unit_source_inj in E. discriminate.
    + apply Hother. intros i _ E. symmetry in E. now apply source_not_plan in E.
Qed.

Lemma zero_capacity_run_witness :
  library_object_count (sample_options 2 0) = 0
  /\ fst (main_generate (sample_options 2 0) empty_fs) = Raise ZeroDivisionError.
Proof.
  split; [reflexivity|].
  destruct (zero_capacity_run (sample_options 2 0) empty_fs eq_refl) as [H _].
  rewrite H. reflexivity.
Defined.

(** ** Where the root and library units are written (C3, C4) *)

(** C3 as the specification states it fails: with 100 leaves in one library
    the root unit is [main_000.cpp], not [main_0.cpp]. *)
Lemma root_unit_path_claim_fails :
  let options := sample_options 100 1000 in
  get_num_libraries_to_build options = Ok 1
  /\ fst (generate_main_source_file options empty_fs) = Ok "out/src/main_000.cpp"
  /\ claimed_root_unit_path options 1 = "out/src/main_0.cpp"
  /\ fst (generate_main_source_file options empty_fs)
     <> Ok (claimed_root_unit_path options 1).
Proof. vm_compute. repeat split. intros [=]. Qed.

(** C3, amended: whenever the library count is computed, the root unit is
    written to [<outputRoot>/src/main_<zeros>.cpp] where the identifier 0 is
    padded to the width of the leaf count, [len(str(leafCount))] digits; the
    file holds the root text over the libraries. *)
Theorem root_unit_path_uses_leaf_width (options : Options) (n : Z) (fs : FileSystem) :
  let p := path_join (output_directory options)
             ("src/main_"
              +:+ zeros (String.length (str (count_of_leaf_source_files options)))
              +:+ ".cpp") in
  get_num_libraries_to_build options = Ok n ->
  generate_main_source_file options fs
  = (Ok p, put_file p (root_unit_text (len (str n)) n) fs).
Proof.
  intros p Hn. subst p. rewrite (generate_main_source_file_run options n Hn).
  unfold root_request. cbn [perform]. unfold unit_source, unit_name.
  cbn [unit_role unit_index]. unfold get_src_name_padding, len.
  rewrite format_zero_of_zero, Nat2Z.id.
  - reflexivity.
  - pose proof (str_nonempty (count_of_leaf_source_files options)). lia.
Qed.

Lemma root_unit_path_uses_leaf_width_witness :
  get_num_libraries_to_build (sample_options 100 1000) = Ok 1
  /\ fst (generate_main_source_file (sample_options 100 1000) empty_fs)
     = Ok "out/src/main_000.cpp".
Proof.
  assert (Hn : get_num_libraries_to_build (sample_options 100 1000) = Ok 1)
    by (vm_compute; reflexivity).
  split; [exact Hn|].
  rewrite (root_unit_path_uses_leaf_width (sample_options 100 1000) 1 empty_fs Hn).
  reflexivity.
Defined.

(** C4 as the specification states it fails: with 100 leaves in 10 libraries
    the unit of library 3 is [lib_003.cpp], not [lib_03.cpp]. *)
Lemma library_unit_path_claim_fails :
  let options := sample_options 100 10 in
  get_num_libraries_to_build options = Ok 10
  /\ fst (generate_lib_source_file options 3 empty_fs) = Ok "out/src/lib_003.cpp"
  /\ claimed_library_unit_path options 10 3 = "out/src/lib_03.cpp"
  /\ fst (generate_lib_source_file options 3 empty_fs)
     <> Ok (claimed_library_unit_path options 10 3).
Proof. vm_compute. repeat split. intros [=]. Qed.

(** C4, amended: whenever the library count is computed, the unit of library
    [j] is written to [<outputRoot>/src/lib_<padded j>.cpp] with [j] padded to
    the width of the leaf count, [len(str(leafCount))] digits; the file holds
    the text of the unit over the range of [j]. *)
Theorem library_unit_path_uses_leaf_width (options : Options) (n j : Z)
    (fs : FileSystem) :
  let p := path_join (output_directory options)
             ("src/lib_"
              +:+ format_zero (len (str (count_of_leaf_source_files options))) j
              +:+ ".cpp") in
  let r := get_lib_src_indices options j in
  get_num_libraries_to_build options = Ok n ->
  generate_lib_source_file options j fs
  = (Ok p,
     put_file p (library_unit_text (len (str (count_of_leaf_source_files options)))
                   (len (str n)) j r.1 r.2) fs).
Proof.
  intros p r Hn. subst p r. rewrite (generate_lib_source_file_run options n Hn).
  unfold library_request. cbn [perform]. rewrite indices_spec_range. reflexivity.
Qed.

Lemma library_unit_path_uses_leaf_width_witness :
  get_num_libraries_to_build (sample_options 100 10) = Ok 10
  /\ fst (generate_lib_source_file (sample_options 100 10) 3 empty_fs)
     = Ok "out/src/lib_003.cpp".
Proof.
  assert (Hn : get_num_libraries_to_build (sample_options 100 10) = Ok 10)
    by (vm_compute; reflexivity).
  split; [exact Hn|].
  rewrite (library_unit_path_uses_leaf_width (sample_options 100 10) 10 3 empty_fs Hn).
  reflexivity.
Defined.

(** ** The build plan over the libraries counted *)

(** For every configuration with a capacity of at least 1, the library
    count is computed when the leaf count is below [2 ^ 53], and whenever it is
    computed the run succeeds and leaves at [<outputRoot>/build.ninja] the
    plan over the libraries it counted: one compile edge per generated unit (leaves,
    libraries, root) from its source to its object, one archive edge per
    partition over the objects of its leaves followed by its own library
    object, one link edge over the root object followed by every archive in
    partition order, and the executable as the default target. *)
Theorem build_plan_complete (options : Options) (fs : FileSystem) :
  1 <= library_object_count options ->
  (0 <= count_of_leaf_source_files options < 2 ^ 53 ->
   exists n, get_num_libraries_to_build options = Ok n)
  /\ forall n, get_num_libraries_to_build options = Ok n ->
       fst (main_generate options fs) = Ok tt
       /\ files (snd (main_generate options fs)) !! plan_path (output_directory options)
          = Some (build_plan_text options n)
       /\ length (units (count_of_leaf_source_files options) n)
          = (Z.to_nat (count_of_leaf_source_files options) + Z.to_nat n + 1)%nat.
Proof.
  intros Hcap. split.
  - intros Ha. destruct (num_libraries_le options Ha Hcap) as (n & Hn & _).
    now exists n.
  - intros n Hn. rewrite (main_generate_ok options n fs Hcap Hn). cbn [fst snd].
    split; [reflexivity|]. split.
    + rewrite files_replay. unfold generation_log.
      rewrite !written_app. cbn [written plan_request].
      now rewrite String.eqb_refl.
    + unfold units, range. rewrite !length_app, !length_map, !length_seqZ.
      cbn [length]. lia.
Qed.

Lemma build_plan_complete_witness :
  1 <= library_object_count (sample_options 5 2)
  /\ fst (main_generate (sample_options 5 2) empty_fs) = Ok tt.
Proof.
  assert (Hcap : 1 <= library_object_count (sample_options 5 2)) by (cbn; lia).
  split; [exact Hcap|].
  destruct (build_plan_complete (sample_options 5 2) empty_fs Hcap) as [_ H].
  destruct (H 3 ltac:(vm_compute; reflexivity)) as [Hok _]. exact Hok.
Defined.

(** ** What a library unit declares (C6) *)

(** Whenever the library count is computed, the unit of library [j] declares
    the leaves of its range [[s, e)] and no other, and its function adds
    each of them once: the file holds [library_unit_text] over [range(s, e)]. *)
Theorem library_unit_declares_its_range (options : Options) (n j : Z)
    (fs : FileSystem) :
  let r := get_lib_src_indices options j in
  let p := unit_source (output_directory options) (get_src_name_padding options)
             (Library j) in
  get_num_libraries_to_build options = Ok n ->
  files (snd (generate_lib_source_file options j fs)) !! p
  = Some (library_unit_text (get_src_name_padding options) (len (str n)) j r.1 r.2).
Proof.
  intros r p Hn. subst r p. rewrite (generate_lib_source_file_run options n Hn).
  cbn [snd]. unfold library_request. cbn [perform]. rewrite indices_spec_range.
  unfold put_file. cbn [files]. apply lookup_insert_eq.
Qed.

(** Below the limits of binary64 every leaf is in the range of exactly one
    of the libraries the script generates. *)
Theorem each_leaf_declared_once_below_limits (options : Options) (k : Z) :
  let a := count_of_leaf_source_files options in
  let b := library_object_count options in
  0 <= a < 2 ^ 53 -> 1 <= b <= 2 ^ 1022 -> 0 <= k < a ->
  exists n j,
    get_num_libraries_to_build options = Ok n /\ j ∈ range n
    /\ k ∈ range2 (get_lib_src_indices options j).1 (get_lib_src_indices options j).2
    /\ forall j', j' ∈ range n ->
         k ∈ range2 (get_lib_src_indices options j').1
                    (get_lib_src_indices options j').2 -> j' = j.
Proof.
  intros a b Ha Hb Hk. subst a b.
  exists (ceil_div (count_of_leaf_source_files options) (library_object_count options)),
    (k / library_object_count options).
  destruct (owner_exists (count_of_leaf_source_files options)
              (library_object_count options) ltac:(lia) k Hk) as [Hi Ho].
  unfold owns in Ho. apply andb_prop in Ho. destruct Ho as [Ho1 Ho2].
  apply Z.leb_le in Ho1. apply Z.ltb_lt in Ho2.
  split; [apply num_libraries_exact; assumption|].
  split; [apply elem_of_seqZ; lia|]. split.
  - rewrite indices_spec_range. apply elem_of_seqZ. lia.
  - intros j' _ Hj'. rewrite indices_spec_range in Hj'. apply elem_of_seqZ in Hj'.
    apply (owner_unique (count_of_leaf_source_files options)
             (library_object_count options) ltac:(lia) k j').
    unfold owns. apply andb_true_intro.
    split; [apply Z.leb_le | apply Z.ltb_lt]; lia.
Qed.

(** C6, at leafCount = 1 and libraryCapacity = 2 ^ 1100: the script counts
    0 libraries, so it generates no library unit at all and leaf 0, which
    exists, is declared in none; the only files of the run are the leaf
    unit, the root unit and the build plan. *)
Theorem float_ceiling_orphans_leaf :
  let options := sample_options 1 (2 ^ 1100) in
  generate_lib_source_files options empty_fs = (Ok [], empty_fs)
  /\ fst (generate_obj_source_files options empty_fs) = Ok ["out/src/src_0.cpp"]
  /\ fst (main_generate options empty_fs) = Ok tt
  /\ dom (files (snd (main_generate options empty_fs)))
     = {[ "out/src/src_0.cpp"; "out/src/main_0.cpp"; "out/build.ninja" ]}.
Proof. vm_compute. repeat split. Qed.

(** ** No leaves (C8) *)

(** C8: with no leaf and a capacity of at least 1 the run succeeds; the
    generators return no leaf unit and no library unit and write the root
    unit alone, whose entry point adds nothing and returns 0; the build plan
    compiles the root unit only, has no archive edge, and its link edge has
    the root object as only input. *)
Theorem empty_tree_run (options : Options) (fs : FileSystem) :
  let root := output_directory options in
  let main_cpp := path_join root "src/main_0.cpp" in
  let main_o := path_join root "obj/main_0.o" in
  let exe := path_join root "bin/lod" in
  let main_text :=
    nl +:+ "int main() {" +:+ nl +:+ "  int ret = 0;" +:+ nl
    +:+ "  return ret;" +:+ nl +:+ "}" +:+ nl in
  let plan_text :=
    plan_preamble options
    +:+ render_section "Build object files"
    +:+ "build " +:+ main_o +:+ ": cc " +:+ main_cpp +:+ nl
    +:+ render_section "Build libraries"
    +:+ render_section "Build main executable"
    +:+ "build " +:+ exe +:+ ": link " +:+ main_o +:+ nl
    +:+ render_section "Define the default target"
    +:+ "default " +:+ exe +:+ nl in
  count_of_leaf_source_files options = 0 ->
  1 <= library_object_count options ->
  generate_source_files options fs
  = (Ok ([], [], [main_cpp]), put_file main_cpp main_text fs)
  /\ main_generate options fs
     = (Ok tt,
        put_file (path_join root "build.ninja") plan_text
          (put_file main_cpp main_text (replay (dir_requests options) fs))).
Proof.
  intros root main_cpp main_o exe main_text plan_text Hcount Hcap.
  subst root main_cpp main_o exe main_text plan_text.
  assert (Hn : get_num_libraries_to_build options = Ok 0)
    by (apply num_libraries_zero_count; lia).
  assert (Hw : get_src_name_padding options = 1)
    by (unfold get_src_name_padding; now rewrite Hcount).
  split.
  - rewrite (generate_source_files_run options 0 Hn).
    unfold leaf_requests, root_request. rewrite Hcount, Hw. reflexivity.
  - rewrite (main_generate_ok options 0 fs Hcap Hn).
    unfold generation_log, leaf_requests, root_request, plan_request.
    rewrite Hcount, Hw, !replay_app. cbn [range map replay foldl perform].
    f_equal. unfold plan_path. f_equal.
    unfold build_plan_text, units, link_edge, compile_edge, render_edge,
      unit_object, unit_source, executable_path.
    rewrite Hcount, Hw. change (range 0) with (@nil Z).
    cbn [map app String.concat edge_rule edge_output edge_inputs join].
    rewrite ?string_app_assoc. reflexivity.
Qed.

Lemma empty_tree_run_witness :
  count_of_leaf_source_files (sample_options 0 1000) = 0
  /\ 1 <= library_object_count (sample_options 0 1000)
  /\ fst (main_generate (sample_options 0 1000) empty_fs) = Ok tt.
Proof.
  split; [reflexivity|].
  assert (Hcap : 1 <= library_object_count (sample_options 0 1000)) by (cbn; lia).
  split; [exact Hcap|].
  destruct (empty_tree_run (sample_options 0 1000) empty_fs eq_refl Hcap) as [_ H].
  rewrite H. reflexivity.
Defined.

(** ** Distinct paths (C9) *)

Lemma artifact_paths_run (options : Options) (n : Z) :
  let root := output_directory options in
  let w := get_src_name_padding options in
  let us := units (count_of_leaf_source_files options) n in
  get_num_libraries_to_build options = Ok n ->
  artifact_paths options n
  = Ok (map (unit_source root w) us ++ map (unit_object root w) us
        ++ map (archive_path root (len (str n))) (range n)
        ++ [executable_path root; plan_path root])%list.
Proof.
  intros root w us Hn. subst root w us. unfold artifact_paths.
  rewrite (result_map_ok _ _ (archive_path (output_directory options) (len (str n))))
    by (intros j _; now apply archive_path_of_index).
  cbn [result_bind].
  rewrite (map_ext _ _ (leaf_source_path options)).
  rewrite (map_ext _ _ (library_source_path options)).
  rewrite root_source_path, sources_are_units, exe_path_of_root.
  rewrite map_map, (map_ext _ _ (obj_of_unit_source options)).
  reflexivity.
Qed.

(** C9: whenever the library count is computed, the paths of all artifacts
    of the run are pairwise distinct: the sources of the leaf, library and
    root units, their objects, the archives, the executable and the build
    plan. *)
Theorem artifact_paths_distinct (options : Options) (n : Z) :
  get_num_libraries_to_build options = Ok n ->
  exists paths, artifact_paths options n = Ok paths /\ NoDup paths.
Proof.
  intros Hn. rewrite (artifact_paths_run options n Hn).
  eexists. split; [reflexivity|].
  set (root := output_directory options).
  set (w := get_src_name_padding options).
  set (us := units (count_of_leaf_source_files options) n).
  change map with (@fmap list _).
  assert (Hus : NoDup us) by apply NoDup_units.
  apply NoDup_app. split; [|split].
  - apply NoDup_fmap_2; [|exact Hus]. intros x y. apply unit_source_inj.
  - intros p Hp Hq. apply list_elem_of_fmap in Hp. destruct Hp as (u & -> & _).
    repeat (apply elem_of_app in Hq; destruct Hq as [Hq|Hq]).
    + apply list_elem_of_fmap in Hq. destruct Hq as (v & E & _).
      now apply source_not_object in E.
    + apply list_elem_of_fmap in Hq. destruct Hq as (j & E & _).
      now apply source_not_archive in E.
    + apply elem_of_cons in Hq. destruct Hq as [E|Hq].
      * now apply source_not_executable in E.
      * apply list_elem_of_singleton in Hq. now apply source_not_plan in Hq.
  - apply NoDup_app. split; [|split].
    + apply NoDup_fmap_2; [|exact Hus]. intros x y. apply unit_object_inj.
    + intros p Hp Hq. apply list_elem_of_fmap in Hp. destruct Hp as (u & -> & _).
      apply elem_of_app in Hq. destruct Hq as [Hq|Hq].
      * apply list_elem_of_fmap in Hq. destruct Hq as (j & E & _).
        now apply object_not_archive in E.
      * apply elem_of_cons in Hq. destruct Hq as [E|Hq].
        -- now apply object_not_executable in E.
        -- apply list_elem_of_singleton in Hq. now apply object_not_plan in Hq.
    + apply NoDup_app. split; [|split].
      * apply NoDup_fmap_2; [|apply NoDup_seqZ]. intros x y. apply archive_path_inj.
      * intros p Hp Hq. apply list_elem_of_fmap in Hp. destruct Hp as (j & -> & _).
        apply elem_of_cons in Hq. destruct Hq as [E|Hq].
        -- now apply archive_not_executable in E.
        -- apply list_elem_of_singleton in Hq. now apply archive_not_plan in Hq.
      * apply NoDup_cons. split; [|apply NoDup_singleton].
        intros Hq. apply list_elem_of_singleton in Hq.
        now apply executable_not_plan in Hq.
Qed.

Lemma artifact_paths_distinct_witness :
  get_num_libraries_to_build (sample_options 5 2) = Ok 3
  /\ exists paths, artifact_paths (sample_options 5 2) 3 = Ok paths /\ NoDup paths.
Proof.
  assert (Hn : get_num_libraries_to_build (sample_options 5 2) = Ok 3)
    by (vm_compute; reflexivity).
  split; [exact Hn|]. exact (artifact_paths_distinct (sample_options 5 2) 3 Hn).
Defined.

(** ** Sample evaluations *)

(** The scenario of the specification: 5 leaves, 2 per library. *)
Example scenario_five_by_two :
  partition_ranges (sample_options 5 2) = Ok [(0, 2); (2, 4); (4, 5)]
  /\ get_num_libraries_to_build (sample_options 5 2) = Ok 3.
Proof. vm_compute. split; reflexivity. Qed.

(** The division of the script is the division of binary64. *)
Example true_divide_rounds_to_even :
  result_bind (true_divide (2 ^ 53 + 1) 1) (fun q => Ok (ceil q)) = Ok (2 ^ 53).
Proof. vm_compute. reflexivity. Qed.

Example true_divide_underflows :
  true_divide 1 (2 ^ 1075) = Ok {| mant := 0; expo := -1074 |}.
Proof. vm_compute. reflexivity. Qed.

Example true_divide_overflows :
  true_divide (2 ^ 1024 - 2 ^ 970) 1 = Raise OverflowError.
Proof. vm_compute. reflexivity. Qed.

Example true_divide_largest :
  result_bind (true_divide (2 ^ 1024 - 2 ^ 970 - 1) 1) (fun q => Ok (ceil q))
  = Ok (2 ^ 1024 - 2 ^ 971).
Proof. vm_compute. reflexivity. Qed.

Example format_zero_samples :
  (format_zero 3 7, format_zero 3 (-5), format_zero 2 123, format_zero 1 0)
  = ("007", "-05", "123", "0").
Proof. reflexivity. Qed.

Example object_path_sample :
  get_obj_file_path (sample_options 5 2) "a.cpp/b/src_0.cpp" = "out/obj/src_0.o".
Proof. reflexivity. Qed.

(** * Further properties of the script *)

(** ** The state a successful run leaves *)

Section FinalState.

Variable options : Options.
Variable n : Z.
Local Abbreviation root := (output_directory options).
Local Abbreviation width := (get_src_name_padding options).
Local Abbreviation count := (count_of_leaf_source_files options).

Lemma written_leaf_requests (i : Z) :
  0 <= i < count ->
  written (leaf_requests options) (unit_source root width (Leaf i))
  = Some (leaf_contents width i).
Proof.
  intros Hi. unfold leaf_requests.
  apply (written_writes_some (fun i => unit_source root width (Leaf i))
           (fun i => leaf_contents width i)).
  - apply elem_of_seqZ. lia.
  - intros y _ E. apply unit_source_inj in E. congruence.
Qed.

Lemma written_leaf_requests_other (p : string) :
  (forall i, 0 <= i < count -> p <> unit_source root width (Leaf i)) ->
  written (leaf_requests options) p = None.
Proof.
  intros Hp. unfold leaf_requests. apply written_writes_none.
  intros i Hi E. apply elem_of_seqZ in Hi. apply (Hp i); [lia | now symmetry].
Qed.

Lemma written_library_requests (j : Z) :
  0 <= j < n ->
  written (map (library_request options n) (range n))
    (unit_source root width (Library j))
  = Some (library_unit_text width (len (str n)) j
            (get_lib_src_indices options j).1 (get_lib_src_indices options j).2).
Proof.
  intros Hj. rewrite indices_spec_range. unfold library_request.
  apply (written_writes_some (fun j => unit_source root width (Library j))
           (fun j => library_unit_text width (len (str n)) j
                       (spec_range count (library_object_count options) j).1
                       (spec_range count (library_object_count options) j).2)).
  - apply elem_of_seqZ. lia.
  - intros y _ E. apply unit_source_inj in E. congruence.
Qed.

Lemma written_library_requests_other (p : string) :
  (forall j, 0 <= j < n -> p <> unit_source root width (Library j)) ->
  written (map (library_request options n) (range n)) p = None.
Proof.
  intros Hp. unfold library_request.
  apply (written_writes_none (fun j => unit_source root width (Library j))).
  intros j Hj E. apply elem_of_seqZ in Hj. apply (Hp j); [lia | now symmetry].
Qed.

Lemma written_generation_log (p : string) :
  written (generation_log options n) p
  = if String.eqb (plan_path root) p then Some (build_plan_text options n)
    else if String.eqb (unit_source root width Root) p
         then Some (root_unit_text (len (str n)) n)
         else match written (map (library_request options n) (range n)) p with
              | Some t => Some t
              | None => written (leaf_requests options) p
              end.
Proof.
  unfold generation_log. rewrite !written_app.
  cbn [written root_request plan_request].
  destruct (String.eqb (plan_path root) p); [reflexivity|].
  destruct (String.eqb (unit_source root width Root) p); [reflexivity|].
  destruct (written (map _ _) p); [reflexivity|].
  now destruct (written (leaf_requests options) p).
Qed.

End FinalState.

(** After a successful run every generated unit is on disk with its own
    text: no write of the run lands on the file of another unit.  Whatever
    is not a unit or the build plan is left as it was, and the five
    directories are requested. *)
Theorem run_final_state (options : Options) (n : Z) (fs : FileSystem) :
  let root := output_directory options in
  let width := get_src_name_padding options in
  let fs' := snd (main_generate options fs) in
  1 <= library_object_count options ->
  get_num_libraries_to_build options = Ok n ->
  (forall i, 0 <= i < count_of_leaf_source_files options ->
     files fs' !! get_source_file_path options i "src"
     = Some (leaf_contents width i))
  /\ (forall j, 0 <= j < n ->
        files fs' !! get_source_file_path options j "lib"
        = Some (library_unit_text width (len (str n)) j
                  (get_lib_src_indices options j).1 (get_lib_src_indices options j).2))
  /\ files fs' !! get_source_file_path options 0 "main"
     = Some (root_unit_text (len (str n)) n)
  /\ (forall p,
        p <> get_ninja_file_path options ->
        p <> get_source_file_path options 0 "main" ->
        (forall j, 0 <= j < n -> p <> get_source_file_path options j "lib") ->
        (forall i, 0 <= i < count_of_leaf_source_files options ->
           p <> get_source_file_path options i "src") ->
        files fs' !! p = files fs !! p)
  /\ dirs fs'
     = {[ get_build_directory options; get_src_directory options;
          get_obj_directory options; get_lib_directory options;
          get_bin_directory options ]} ∪ dirs fs.
Proof.
  intros root width fs' Hcap Hn. subst root width fs'.
  rewrite (main_generate_ok options n fs Hcap Hn). cbn [snd].
  assert (Hplan : get_ninja_file_path options = plan_path (output_directory options))
    by reflexivity.
  split; [|split; [|split; [|split]]].
  - intros i Hi. rewrite leaf_source_path, files_replay, written_generation_log.
    destruct (String.eqb_spec (plan_path (output_directory options))
                (unit_source (output_directory options)
                   (get_src_name_padding options) (Leaf i))) as [E|_];
      [symmetry in E; now apply source_not_plan in E|].
    destruct (String.eqb_spec
                (unit_source (output_directory options)
                   (get_src_name_padding options) Root)
                (unit_source (output_directory options)
                   (get_src_name_padding options) (Leaf i))) as [E|_];
      [apply unit_source_inj in E; discriminate|].
    rewrite written_library_requests_other, written_leaf_requests by
      (try lia; intros j _ E; apply unit_source_inj in E; discriminate).
    reflexivity.
  - intros j Hj. rewrite library_source_path, files_replay, written_generation_log.
    destruct (String.eqb_spec (plan_path (output_directory options))
                (unit_source (output_directory options)
                   (get_src_name_padding options) (Library j))) as [E|_];
      [symmetry in E; now apply source_not_plan in E|].
    destruct (String.eqb_spec
                (unit_source (output_directory options)
                   (get_src_name_padding options) Root)
                (unit_source (output_directory options)
                   (get_src_name_padding options) (Library j))) as [E|_];
      [apply unit_source_inj in E; discriminate|].
    now rewrite written_library_requests by lia.
  - rewrite root_source_path, files_replay, written_generation_log.
    destruct (String.eqb_spec (plan_path (output_directory options))
                (unit_source (output_directory options)
                   (get_src_name_padding options) Root)) as [E|_];
      [symmetry in E; now apply source_not_plan in E|].
    now rewrite String.eqb_refl.
  - intros p Hp Hr Hl Hs. rewrite files_replay, written_generation_log.
    rewrite Hplan in Hp. rewrite root_source_path in Hr.
    destruct (String.eqb_spec (plan_path (output_directory options)) p);
      [congruence|].
    destruct (String.eqb_spec (unit_source (output_directory options)
                (get_src_name_padding options) Root) p); [congruence|].
    rewrite written_library_requests_other, written_leaf_requests_other.
    + reflexivity.
    + intros i Hi. rewrite <- leaf_source_path. now apply Hs.
    + intros j Hj. rewrite <- library_source_path. now apply Hl.
  - rewrite dirs_replay. f_equal. unfold generation_log, requested_dirs.
    rewrite !foldr_app. cbn [foldr dir_requests].
    assert (Hnone : forall l acc,
              (forall a, a ∈ l -> exists p t, a = Write p t) ->
              foldr (fun a acc => match a with
                                  | Mkdir p => {[ p ]} ∪ acc
                                  | Write _ _ => acc
                                  end) acc l = (acc : gset string)).
    { induction l as [|a l IH]; intros acc Hl; [reflexivity|].
      cbn [foldr]. destruct (Hl a ltac:(constructor)) as (p & t & ->).
      apply IH. intros b Hb. apply Hl. now constructor. }
    rewrite (Hnone (map (library_request options n) (range n))),
      (Hnone (leaf_requests options)).
    + cbn [root_request plan_request]. now rewrite (right_id_L ∅ (∪)), !(assoc_L (∪)).
    + intros a Ha. unfold leaf_requests in Ha. apply list_elem_of_fmap in Ha.
      destruct Ha as (i & -> & _). eauto.
    + intros a Ha. apply list_elem_of_fmap in Ha.
      destruct Ha as (j & -> & _). unfold library_request. eauto.
Qed.

Lemma run_final_state_witness :
  1 <= library_object_count (sample_options 5 2)
  /\ get_num_libraries_to_build (sample_options 5 2) = Ok 3
  /\ files (snd (main_generate (sample_options 5 2) empty_fs))
       !! get_source_file_path (sample_options 5 2) 0 "main"
     = Some (root_unit_text 1 3).
Proof.
  assert (Hcap : 1 <= library_object_count (sample_options 5 2)) by (cbn; lia).
  assert (Hn : get_num_libraries_to_build (sample_options 5 2) = Ok 3)
    by (vm_compute; reflexivity).
  split; [exact Hcap|]. split; [exact Hn|].
  destruct (run_final_state (sample_options 5 2) 3 empty_fs Hcap Hn)
    as (_ & _ & H & _).
  exact H.
Defined.

(** ** The files a run creates *)

Section Created.

Lemma dom_replay (log : list Action) :
  forall fs, dom (files (replay log fs))
             = list_to_set (log_paths log) ∪ dom (files fs).
Proof.
  induction log as [|a log IH]; intros fs.
  - cbn. now rewrite (left_id_L ∅ (∪)).
  - change (replay (a :: log) fs) with (replay log (perform fs a)).
    rewrite IH. destruct a as [q|q text]; cbn [log_paths perform].
    + reflexivity.
    + unfold put_file; cbn [files list_to_set]. rewrite dom_insert_L.
      rewrite !(assoc_L (∪)). f_equal. apply (comm_L (∪)).
Qed.

Lemma log_paths_app (l1 l2 : list Action) :
  log_paths (l1 ++ l2) = (log_paths l1 ++ log_paths l2)%list.
Proof.
  induction l1 as [|a l1 IH]; [reflexivity|].
  rewrite <- app_comm_cons. destruct a; cbn [log_paths]; [exact IH|].
  rewrite IH. reflexivity.
Qed.

Lemma log_paths_writes {A : Type} (path text : A -> string) (l : list A) :
  log_paths (map (fun x => Write (path x) (text x)) l) = map path l.
Proof. induction l as [|x l IH]; [reflexivity|]. cbn [map log_paths]. now rewrite IH. Qed.

Lemma log_paths_generation (options : Options) (n : Z) :
  log_paths (generation_log options n)
  = (map (unit_source (output_directory options) (get_src_name_padding options))
         (units (count_of_leaf_source_files options) n)
     ++ [plan_path (output_directory options)])%list.
Proof.
  unfold generation_log, leaf_requests, units. rewrite !log_paths_app.
  unfold library_request.
  rewrite (log_paths_writes
             (fun i => unit_source (output_directory options)
                         (get_src_name_padding options) (Leaf i))
             (fun i => leaf_contents (get_src_name_padding options) i)).
  rewrite (log_paths_writes
             (fun j => unit_source (output_directory options)
                         (get_src_name_padding options) (Library j))).
  rewrite !map_app, !map_map. cbn [log_paths dir_requests map root_request
    plan_request app]. rewrite <- !app_assoc. reflexivity.
Qed.

End Created.

(** A run into an empty tree creates one file per leaf, one per library, the
    root unit and the build plan, and nothing else: [leafCount + libraryCount
    + 2] files. *)
Theorem run_creates_one_file_per_unit (options : Options) (n : Z) :
  1 <= library_object_count options ->
  get_num_libraries_to_build options = Ok n ->
  size (dom (files (snd (main_generate options empty_fs))))
  = (Z.to_nat (count_of_leaf_source_files options) + Z.to_nat n + 2)%nat.
Proof.
  intros Hcap Hn. rewrite (main_generate_ok options n empty_fs Hcap Hn).
  cbn [snd]. rewrite dom_replay. cbn [empty_fs files].
  rewrite dom_empty_L, (right_id_L ∅ (∪)), log_paths_generation.
  rewrite size_list_to_set.
  - rewrite length_app, length_map. unfold units, range.
    rewrite !length_app, !length_map, !length_seqZ. cbn [length]. lia.
  - change map with (@fmap list _). apply NoDup_app. split; [|split].
    + apply NoDup_fmap_2; [|apply NoDup_units]. intros x y. apply unit_source_inj.
    + intros p Hp Hq. apply list_elem_of_fmap in Hp. destruct Hp as (u & -> & _).
      apply list_elem_of_singleton in Hq. now apply source_not_plan in Hq.
    + apply NoDup_singleton.
Qed.

Lemma run_creates_one_file_per_unit_witness :
  1 <= library_object_count (sample_options 5 2)
  /\ get_num_libraries_to_build (sample_options 5 2) = Ok 3
  /\ size (dom (files (snd (main_generate (sample_options 5 2) empty_fs)))) = 10%nat.
Proof.
  assert (Hcap : 1 <= library_object_count (sample_options 5 2)) by (cbn; lia).
  assert (Hn : get_num_libraries_to_build (sample_options 5 2) = Ok 3)
    by (vm_compute; reflexivity).
  split; [exact Hcap|]. split; [exact Hn|].
  rewrite (run_creates_one_file_per_unit (sample_options 5 2) 3 Hcap Hn).
  reflexivity.
Defined.

(** ** Objects of arbitrary sources *)

Section Objects.

Lemma lacks_basename_from (pre p : string) :
  lacks "/" pre = true -> lacks "/" (basename_from (pre +:+ p) p) = true.
Proof.
  revert pre. induction p as [|c p IH]; intros pre Hpre.
  - cbn [basename_from]. now rewrite string_app_nil_r.
  - cbn [basename_from]. destruct (is_sep c) eqn:Hc.
    + apply (IH ""). reflexivity.
    + change (pre +:+ String c p) with (pre +:+ (String c "" +:+ p)).
      rewrite <- string_app_assoc. apply IH.
      rewrite lacks_app, Hpre. cbn [lacks andb]. unfold is_sep in Hc.
      now rewrite Hc.
Qed.

Lemma lacks_replace_go (s : string) :
  lacks "/" s = true -> forall k, lacks "/" (replace_go ".cpp" ".o" k s) = true.
Proof.
  induction s as [|c s IH]; intros Hs k; [reflexivity|].
  cbn [lacks] in Hs. apply andb_prop in Hs. destruct Hs as [Hc Hs].
  cbn [replace_go]. destruct k as [|k]; [|now apply IH].
  destruct (String.prefix ".cpp" (String c s)).
  - rewrite lacks_app, IH by assumption. reflexivity.
  - cbn [lacks]. now rewrite Hc, IH.
Qed.

End Objects.

(** Whatever the source path, the object path is the [obj] directory
    followed by one name that holds no separator: an object never lands in
    a directory below [obj].  (The name is empty for a source that ends in a
    separator, and is [..] for a source that ends in [/..].) *)
Theorem object_path_in_obj_directory (options : Options) (src_file : string) :
  exists name,
    lacks "/" name = true
    /\ get_obj_file_path options src_file
       = root_prefix (output_directory options) +:+ "obj/" +:+ name.
Proof.
  exists (basename (replace ".cpp" ".o" src_file)). split.
  - unfold basename. apply (lacks_basename_from ""). reflexivity.
  - unfold get_obj_file_path, get_obj_directory, get_build_directory.
    set (name := basename _).
    assert (Hname : lacks "/" name = true)
      by (unfold name, basename; apply (lacks_basename_from ""); reflexivity).
    assert (Hrel : String.prefix "/" name = false).
    { destruct name as [|c name]; [reflexivity|].
      cbn [lacks] in Hname. apply andb_prop in Hname. destruct Hname as [Hc _].
      apply negb_true_iff, Ascii.eqb_neq in Hc.
      apply prefix_cons_ne. congruence. }
    rewrite path_join_nested; [| reflexivity | discriminate | reflexivity | exact Hrel].
    reflexivity.
Qed.

(** The object path depends on the base name of the source alone: the
    directory of the source is dropped, and every occurrence of [.cpp] in
    the base name becomes [.o].  Two sources with the same base name in
    different directories thus share one object. *)
Theorem object_path_depends_on_base_name (options : Options) (dir name : string) :
  lacks "/" name = true ->
  get_obj_file_path options (dir +:+ "/" +:+ name)
  = path_join (get_obj_directory options) (replace ".cpp" ".o" name).
Proof.
  intros Hname. unfold get_obj_file_path. f_equal.
  change (dir +:+ "/" +:+ name) with (dir +:+ String "/" name).
  unfold replace at 1.
  destruct (replace_keeps_dir name dir 0%nat eq_refl) as [d' ->].
  unfold basename. apply basename_dir. unfold replace. now apply lacks_replace_go.
Qed.

Lemma object_path_depends_on_base_name_witness :
  lacks "/" "unit.cpp" = true
  /\ get_obj_file_path (sample_options 5 2) ("a.cpp/b" +:+ "/" +:+ "unit.cpp")
     = "out/obj/unit.o".
Proof.
  split; [reflexivity|].
  rewrite (object_path_depends_on_base_name (sample_options 5 2) "a.cpp/b" "unit.cpp"
             eq_refl).
  reflexivity.
Defined.

(** ** Too few library sources *)

Section MissingSources.

Lemma result_map_raise {A B : Type} (f : A -> result B) (e : exn)
    (l1 l2 : list A) (x : A) :
  (forall y, y ∈ l1 -> exists v, f y = Ok v) -> f x = Raise e ->
  result_map f (l1 ++ x :: l2) = Raise e.
Proof.
  intros Hok Hx. induction l1 as [|y l1 IH].
  - cbn [app result_map]. now rewrite Hx.
  - rewrite <- app_comm_cons. cbn [result_map].
    destruct (Hok y ltac:(constructor)) as [v ->]. cbn [result_bind].
    rewrite IH; [reflexivity|]. intros z Hz. apply Hok. now constructor.
Qed.

Lemma index_in_range {A : Type} (l : list A) (i : Z) :
  0 <= i < Z.of_nat (length l) -> exists x, index l i = Ok x.
Proof.
  intros Hi. unfold index. destruct (Z.ltb_spec i 0); [lia|].
  destruct (Z.ltb_spec i 0); [lia|].
  destruct (l !! Z.to_nat i) as [x|] eqn:E; [now exists x|].
  apply lookup_ge_None in E. lia.
Qed.

Lemma index_past_end {A : Type} (l : list A) (i : Z) :
  Z.of_nat (length l) <= i -> index l i = Raise IndexError.
Proof.
  intros Hi. unfold index. destruct (Z.ltb_spec i 0); [lia|].
  destruct (Z.ltb_spec i 0); [lia|].
  rewrite (proj2 (lookup_ge_None l (Z.to_nat i))); [reflexivity | lia].
Qed.

End MissingSources.

(** When fewer library sources are passed than there are libraries, the
    split of the objects raises [IndexError] at the first library without a
    source, and the emitter raises it before the plan file is opened: the
    file system is left as it was. *)
Theorem missing_library_source_raises (options : Options) (n : Z)
    (obj_src lib_src main_src : list string) (fs : FileSystem) :
  get_num_libraries_to_build options = Ok n ->
  Z.of_nat (length lib_src) < n ->
  split_object_files_into_libraries options obj_src lib_src = Raise IndexError
  /\ generate_ninja_file options obj_src lib_src main_src fs = (Raise IndexError, fs).
Proof.
  intros Hn Hlen.
  assert (Hsplit : split_object_files_into_libraries options obj_src lib_src
                   = Raise IndexError).
  { unfold split_object_files_into_libraries. rewrite Hn. cbn [result_bind].
    set (k := Z.of_nat (length lib_src)) in *.
    unfold range. replace n with (k + (n - k)) by lia.
    rewrite seqZ_app by lia. rewrite (seqZ_cons (0 + k)) by lia.
    apply result_map_raise.
    - intros j Hj. apply elem_of_seqZ in Hj.
      rewrite (archive_path_of_index options n j Hn). cbn [result_bind].
      destruct (get_lib_src_indices options j) as [s e].
      destruct (index_in_range lib_src j ltac:(lia)) as [x ->].
      cbn [result_bind]. eauto.
    - rewrite (archive_path_of_index options n _ Hn). cbn [result_bind].
      destruct (get_lib_src_indices options (0 + k)) as [s e].
      rewrite index_past_end by lia. reflexivity. }
  split; [exact Hsplit|].
  unfold generate_ninja_file, gen_bind, lift. now rewrite Hsplit.
Qed.

Lemma missing_library_source_raises_witness :
  get_num_libraries_to_build (sample_options 5 2) = Ok 3
  /\ Z.of_nat (length ["out/src/lib_0.cpp"; "out/src/lib_1.cpp"]) < 3
  /\ split_object_files_into_libraries (sample_options 5 2) []
       ["out/src/lib_0.cpp"; "out/src/lib_1.cpp"] = Raise IndexError.
Proof.
  assert (Hn : get_num_libraries_to_build (sample_options 5 2) = Ok 3)
    by (vm_compute; reflexivity).
  assert (Hlen : Z.of_nat (length ["out/src/lib_0.cpp"; "out/src/lib_1.cpp"]) < 3)
    by (cbn; lia).
  split; [exact Hn|]. split; [exact Hlen|].
  destruct (missing_library_source_raises (sample_options 5 2) 3 []
              ["out/src/lib_0.cpp"; "out/src/lib_1.cpp"] [] empty_fs Hn Hlen)
    as [H _].
  exact H.
Defined.

(** ** A quotient too large for a float *)

(** When the leaf count is at least [2 ^ 1024] times the capacity, the float
    division overflows and counting the libraries raises [OverflowError]. *)
Theorem huge_quotient_raises_overflow (options : Options) :
  1 <= library_object_count options ->
  2 ^ 1024 * library_object_count options <= count_of_leaf_source_files options ->
  get_num_libraries_to_build options = Raise OverflowError.
Proof.
  intros Hb Ha.
  set (a := count_of_leaf_source_files options) in *.
  set (b := library_object_count options) in *.
  assert (Hp : 0 < 2 ^ 1024) by (apply Z.pow_pos_nonneg; lia).
  unfold get_num_libraries_to_build, true_divide. fold a b.
  destruct (Z.eqb_spec b 0); [lia|].
  destruct (Z.eqb_spec a 0); [nia|].
  rewrite !Z.abs_eq by nia.
  pose proof (quotient_exponent_lower a b ltac:(nia) ltac:(lia)) as Hl.
  assert (He : 1024 <= quotient_exponent a b).
  { unfold quotient_exponent. destruct (Z.leb_spec b a); [|nia].
    rewrite <- (Z.log2_pow2 1024) by lia. apply Z.log2_le_mono.
    apply Z.div_le_lower_bound; lia. }
  set (e0 := quotient_exponent a b) in *.
  replace (Z.max (e0 - 52) (-1074)) with (e0 - 52) by lia.
  replace (Z.max 0 (- (e0 - 52))) with 0 by lia.
  replace (Z.max 0 (e0 - 52)) with (e0 - 52) by lia.
  rewrite Z.pow_0_r, Z.mul_1_r.
  replace (Z.max 0 e0) with e0 in Hl by lia.
  replace (Z.max 0 (- e0)) with 0 in Hl by lia.
  rewrite Z.pow_0_r, Z.mul_1_r in Hl.
  assert (Hsplit : 2 ^ e0 = 2 ^ 52 * 2 ^ (e0 - 52))
    by (rewrite <- Z.pow_add_r by lia; f_equal; lia).
  assert (HE : 0 < 2 ^ (e0 - 52)) by (apply Z.pow_pos_nonneg; lia).
  assert (Hm : 2 ^ 52 <= round_half_even a (b * 2 ^ (e0 - 52)))
    by (apply round_half_even_ge; nia).
  assert (Hbig : 2 ^ 1024 <= 2 ^ e0) by (apply Z.pow_le_mono_r; lia).
  set (m := round_half_even a (b * 2 ^ (e0 - 52))) in *.
  destruct (Z.leb_spec 0 (e0 - 52)); [|lia].
  destruct (Z.leb_spec (2 ^ 1024) (m * 2 ^ (e0 - 52))); [reflexivity|].
  exfalso. set (T := 2 ^ 52) in *. set (E := 2 ^ (e0 - 52)) in *.
  set (B := 2 ^ 1024) in *. nia.
Qed.

Lemma huge_quotient_raises_overflow_witness :
  1 <= library_object_count (sample_options (2 ^ 1024) 1)
  /\ get_num_libraries_to_build (sample_options (2 ^ 1024) 1) = Raise OverflowError.
Proof.
  assert (Hb : 1 <= library_object_count (sample_options (2 ^ 1024) 1)) by (cbn; lia).
  split; [exact Hb|].
  apply (huge_quotient_raises_overflow (sample_options (2 ^ 1024) 1) Hb).
  cbn [library_object_count count_of_leaf_source_files sample_options]. lia.
Defined.

(** ** What a library may declare *)

(** Whatever index it is asked for, the partitioner never hands a library
    more leaves than the capacity, and never a leaf that is not generated:
    the range of library [j] lies inside [[0, leafCount)]. *)
Theorem library_range_within_bounds (options : Options) (j : Z) :
  let r := get_lib_src_indices options j in
  1 <= library_object_count options -> 0 <= j ->
  (length (range2 r.1 r.2) <= Z.to_nat (library_object_count options))%nat
  /\ forall k, k ∈ range2 r.1 r.2 -> 0 <= k < count_of_leaf_source_files options.
Proof.
  intros r Hcap Hj. subst r. unfold get_lib_src_indices, range2. cbn [fst snd].
  split.
  - rewrite length_seqZ. lia.
  - intros k Hk. apply elem_of_seqZ in Hk. nia.
Qed.

Lemma library_range_within_bounds_witness :
  1 <= library_object_count (sample_options 5 2) /\ 0 <= 2
  /\ (length (range2 (get_lib_src_indices (sample_options 5 2) 2).1
                     (get_lib_src_indices (sample_options 5 2) 2).2) <= 2)%nat.
Proof.
  assert (Hcap : 1 <= library_object_count (sample_options 5 2)) by (cbn; lia).
  assert (Hj : 0 <= 2) by lia.
  split; [exact Hcap|]. split; [exact Hj|].
  destruct (library_range_within_bounds (sample_options 5 2) 2 Hcap Hj) as [H _].
  exact H.
Defined.

(** ** The number of libraries, below the limits of binary64 *)

(** With at least one leaf there is at least one library, and never more
    libraries than leaves. *)
Theorem library_count_between_one_and_leaves (options : Options) :
  1 <= count_of_leaf_source_files options < 2 ^ 53 ->
  1 <= library_object_count options <= 2 ^ 1022 ->
  exists n, get_num_libraries_to_build options = Ok n
            /\ 1 <= n <= count_of_leaf_source_files options.
Proof.
  intros Ha Hb. eexists. split; [apply num_libraries_exact; lia|].
  pose proof (ceil_div_bounds (count_of_leaf_source_files options)
                (library_object_count options) ltac:(lia)). nia.
Qed.

Lemma library_count_between_one_and_leaves_witness :
  exists n, get_num_libraries_to_build (sample_options 10 1000) = Ok n /\ 1 <= n <= 10.
Proof.
  apply (library_count_between_one_and_leaves (sample_options 10 1000)).
  - cbn. lia.
  - cbn. lia.
Defined.

(** ** Leaf units define distinct functions *)

Section LeafNames.

Lemma leaf_source_lines_shape (name : string) :
  leaf_source_lines name
  = (firstn 11 (leaf_source_lines "")
     ++ ["        int " +:+ name +:+ "() {"]
     ++ skipn 12 (leaf_source_lines ""))%list.
Proof. reflexivity. Qed.

Lemma sandwiched_inj (before after x y : string) :
  before +:+ x +:+ after = before +:+ y +:+ after -> x = y.
Proof.
  intros E. apply (inj (String.app _)) in E. now apply string_app_inj_r in E.
Qed.

Lemma leaf_contents_shape (w : Z) :
  exists before after,
    forall k, leaf_contents w k = before +:+ format_zero w k +:+ after.
Proof.
  set (line := fun l : string => l +:+ nl).
  exists (nl +:+ String.concat "" (map line (firstn 11 (leaf_source_lines "")))
          +:+ "        int " +:+ "src_").
  exists ("() {" +:+ nl
          +:+ String.concat "" (map line (skipn 12 (leaf_source_lines "")))
          +:+ "        ").
  intros k. unfold leaf_contents. fold line. rewrite leaf_source_lines_shape.
  generalize (firstn 11 (leaf_source_lines "")) as pre.
  generalize (skipn 12 (leaf_source_lines "")) as post.
  intros post pre.
  rewrite !map_app, !concat_empty_app. cbn [map]. rewrite concat_empty_cons.
  cbn [String.concat]. unfold line at 2. rewrite !string_app_assoc. reflexivity.
Qed.

End LeafNames.

(** Two different leaves never get the same text: each leaf unit defines a
    function of its own name, whatever the padding width. *)
Theorem leaf_units_define_distinct_functions (w i j : Z) :
  i <> j -> leaf_contents w i <> leaf_contents w j.
Proof.
  intros Hne E. destruct (leaf_contents_shape w) as (before & after & Hshape).
  rewrite !Hshape in E. apply sandwiched_inj, format_zero_inj in E. contradiction.
Qed.

Lemma leaf_units_define_distinct_functions_witness :
  0 <> 1 /\ leaf_contents 1 0 <> leaf_contents 1 1.
Proof.
  assert (H : 0 <> 1) by lia.
  split; [exact H|]. exact (leaf_units_define_distinct_functions 1 0 1 H).
Defined.

(** ** Decimal digits *)

Section Digits.

Lemma pow10_succ (n : nat) : 10 ^ Z.of_nat (S n) = 10 * 10 ^ Z.of_nat n.
Proof. rewrite Nat2Z.inj_succ, Z.pow_succ_r by lia. reflexivity. Qed.

Lemma pow10_pos (n : nat) : 0 < 10 ^ Z.of_nat n.
Proof. apply Z.pow_pos_nonneg; lia. Qed.

Lemma uint_value_bounds (d : Decimal.uint) :
  0 <= uint_value d < 10 ^ Z.of_nat (Decimal.nb_digits d).
Proof.
  induction d; cbn [uint_value Decimal.nb_digits];
    rewrite ?pow10_succ; try lia;
    pose proof (pow10_pos (Decimal.nb_digits d)); lia.
Qed.

Lemma of_uint_acc_value (d : Decimal.uint) :
  forall acc, Z.pos (Pos.of_uint_acc d acc)
              = Z.pos acc * 10 ^ Z.of_nat (Decimal.nb_digits d) + uint_value d.
Proof.
  induction d; intros acc; cbn [Pos.of_uint_acc uint_value Decimal.nb_digits];
    rewrite ?IHd, ?pow10_succ, ?Pos2Z.inj_add, ?Pos2Z.inj_mul; lia.
Qed.

Lemma of_uint_value (d : Decimal.uint) : Z.of_uint d = uint_value d.
Proof.
  unfold Z.of_uint.
  induction d; cbn [Pos.of_uint uint_value]; try reflexivity;
    try (cbn [Z.of_N]; rewrite of_uint_acc_value; lia).
  rewrite IHd. lia.
Qed.

Lemma string_of_uint_length (d : Decimal.uint) :
  String.length (NilEmpty.string_of_uint d) = Decimal.nb_digits d.
Proof.
  induction d; cbn [NilEmpty.string_of_uint String.length Decimal.nb_digits];
    congruence.
Qed.

Lemma nzhead_head (d : Decimal.uint) :
  match Decimal.nzhead d with
  | Decimal.D0 _ => False
  | _ => True
  end.
Proof. induction d; cbn [Decimal.nzhead]; auto. Qed.

(** A numeral without leading zero is at least [10 ^ (digits - 1)]. *)
Lemma uint_value_lower (d : Decimal.uint) :
  Decimal.unorm d = d -> d <> Decimal.zero ->
  10 ^ (Z.of_nat (Decimal.nb_digits d) - 1) <= uint_value d.
Proof.
  intros Hnorm Hnz. pose proof (nzhead_head d) as Hh.
  unfold Decimal.unorm in Hnorm.
  destruct (Decimal.nzhead d) eqn:E; try contradiction;
    try (now subst d);
    rewrite <- Hnorm; cbn [uint_value Decimal.nb_digits];
    rewrite Nat2Z.inj_succ; replace (Z.succ _ - 1) with (Z.of_nat (Decimal.nb_digits u)) by lia;
    pose proof (uint_value_bounds u); pose proof (pow10_pos (Decimal.nb_digits u)); nia.
Qed.

Lemma pos_digits_bounds (p : positive) :
  let n := Z.of_nat (String.length (str (Z.pos p))) in
  10 ^ (n - 1) <= Z.pos p < 10 ^ n.
Proof.
  intros n. subst n. unfold str. cbn [Z.to_int NilEmpty.string_of_int].
  rewrite string_of_uint_length.
  assert (Hv : uint_value (Pos.to_uint p) = Z.pos p).
  { rewrite <- of_uint_value. unfold Z.of_uint.
    now rewrite DecimalPos.Unsigned.of_to. }
  assert (Hnorm : Decimal.unorm (Pos.to_uint p) = Pos.to_uint p).
  { pose proof (DecimalPos.Unsigned.to_of (Pos.to_uint p)) as H.
    rewrite DecimalPos.Unsigned.of_to in H. symmetry. exact H. }
  split.
  - rewrite <- Hv. apply uint_value_lower; [exact Hnorm|].
    apply DecimalPos.Unsigned.to_uint_nonzero.
  - rewrite <- Hv at 1. apply uint_value_bounds.
Qed.

(** [len(str i) <= len(str c)] for [0 <= i <= c]. *)
Lemma str_length_mono (i c : Z) :
  0 <= i <= c -> (String.length (str i) <= String.length (str c))%nat.
Proof.
  intros [Hi Hc]. destruct i as [|p|p]; [apply str_nonempty | | lia].
  destruct c as [|q|q]; try lia.
  pose proof (pos_digits_bounds p) as [Hp _].
  pose proof (pos_digits_bounds q) as [_ Hq]. cbv zeta in Hp, Hq.
  destruct (Nat.le_gt_cases (String.length (str (Z.pos p)))
              (String.length (str (Z.pos q)))) as [?|Hgt]; [assumption|].
  exfalso.
  assert (10 ^ Z.of_nat (String.length (str (Z.pos q)))
          <= 10 ^ (Z.of_nat (String.length (str (Z.pos p))) - 1))
    by (apply Z.pow_le_mono_r; lia).
  lia.
Qed.

Lemma zeros_digits (k : nat) (d : Decimal.uint) :
  zeros k +:+ NilEmpty.string_of_uint d
  = NilEmpty.string_of_uint (Nat.iter k Decimal.D0 d)
  /\ uint_value (Nat.iter k Decimal.D0 d) = uint_value d
  /\ Decimal.nb_digits (Nat.iter k Decimal.D0 d) = (k + Decimal.nb_digits d)%nat.
Proof.
  induction k as [|k (IH1 & IH2 & IH3)].
  - cbn [Nat.iter zeros String.append]. auto.
  - change (Nat.iter (S k) Decimal.D0 d) with (Decimal.D0 (Nat.iter k Decimal.D0 d)).
    cbn [zeros String.append NilEmpty.string_of_uint uint_value Decimal.nb_digits].
    rewrite IH1, IH2, IH3. repeat split; lia.
Qed.

Lemma format_zero_digits (w i : Z) :
  0 <= i ->
  exists d,
    format_zero w i = NilEmpty.string_of_uint d /\ uint_value d = i
    /\ Decimal.nb_digits d
       = (Z.to_nat (w - Z.of_nat (String.length (str i))) + String.length (str i))%nat.
Proof.
  intros Hi. unfold format_zero.
  destruct (Z.ltb_spec i 0); [lia|].
  destruct (str_abs_digits i) as (d & Hd & Hv & _).
  rewrite (Z.abs_eq i) in * by lia.
  change (len "") with 0. unfold len. rewrite Z.sub_0_r.
  set (k := Z.to_nat (w - Z.of_nat (String.length (str i)))).
  destruct (zeros_digits k d) as (H1 & H2 & H3).
  exists (Nat.iter k Decimal.D0 d). cbn [String.append].
  split; [|split].
  - now rewrite Hd.
  - now rewrite H2, <- of_uint_value.
  - rewrite H3. f_equal. now rewrite Hd, string_of_uint_length.
Qed.

End Digits.

(** Every leaf identifier has the width of the leaf count: for
    [0 <= i < leafCount] the padded index has exactly [len(str(leafCount))]
    characters, so all leaf sources have paths of one length. *)
Theorem leaf_identifiers_have_uniform_width (options : Options) (i : Z) :
  0 <= i < count_of_leaf_source_files options ->
  len (format_zero (get_src_name_padding options) i) = get_src_name_padding options
  /\ String.length (get_source_file_path options i "src")
     = String.length (get_source_file_path options 0 "src").
Proof.
  intros Hi.
  assert (Hw : forall k, 0 <= k < count_of_leaf_source_files options ->
            String.length (format_zero (get_src_name_padding options) k)
            = String.length (str (count_of_leaf_source_files options))).
  { intros k Hk. destruct (format_zero_digits (get_src_name_padding options) k)
      as (d & -> & _ & Hn); [lia|].
    rewrite string_of_uint_length, Hn. unfold get_src_name_padding, len.
    pose proof (str_length_mono k (count_of_leaf_source_files options) ltac:(lia)). lia. }
  split.
  - unfold len. rewrite Hw by lia. reflexivity.
  - rewrite !leaf_source_path, !unit_source_rel. unfold unit_name.
    cbn [unit_role unit_index]. rewrite !string_app_length, !Hw by lia. reflexivity.
Qed.

Lemma leaf_identifiers_have_uniform_width_witness :
  0 <= 7 < count_of_leaf_source_files (sample_options 100 10)
  /\ format_zero (get_src_name_padding (sample_options 100 10)) 7 = "007".
Proof.
  assert (H : 0 <= 7 < count_of_leaf_source_files (sample_options 100 10))
    by (cbn; lia).
  split; [exact H|].
  destruct (leaf_identifiers_have_uniform_width (sample_options 100 10) 7 H) as [Hw _].
  apply (f_equal Z.to_nat) in Hw. unfold len in Hw. rewrite Nat2Z.id in Hw.
  vm_compute in Hw. reflexivity.
Defined.

(** ** File names sort in the order of the indices *)

Section Sorting.

Lemma ascii_compare_refl (c : ascii) : Ascii.compare c c = Eq.
Proof. unfold Ascii.compare. apply N.compare_refl. Qed.

Lemma compare_app_head (p x y : string) :
  String.compare (p +:+ x) (p +:+ y) = String.compare x y.
Proof.
  induction p as [|c p IH]; [reflexivity|].
  cbn [String.append String.compare]. now rewrite ascii_compare_refl.
Qed.

Ltac decide_head :=
  match goal with
  | |- context [Ascii.compare ?a ?b] =>
      let c := eval vm_compute in (Ascii.compare a b) in
      change (Ascii.compare a b) with c; cbv iota
  end.

(** Of two numerals with as many digits, the smaller one comes first. *)
Lemma digits_compare (d1 : Decimal.uint) :
  forall d2 s1 s2,
    Decimal.nb_digits d1 = Decimal.nb_digits d2 ->
    uint_value d1 < uint_value d2 ->
    String.compare (NilEmpty.string_of_uint d1 +:+ s1)
                   (NilEmpty.string_of_uint d2 +:+ s2) = Lt.
Proof.
  induction d1; intros d2 s1 s2 Hn Hv; destruct d2;
    cbn [Decimal.nb_digits] in Hn; try discriminate Hn;
    try (cbn [uint_value] in Hv; lia);
    injection Hn as Hn; cbn [uint_value] in Hv; rewrite <- Hn in Hv;
    pose proof (uint_value_bounds d1) as B1;
    pose proof (uint_value_bounds d2) as B2; rewrite <- Hn in B2;
    cbn [NilEmpty.string_of_uint String.append String.compare];
    decide_head;
    first [ reflexivity | apply IHd1; [exact Hn | lia] | exfalso; lia ].
Qed.

End Sorting.

(** The sources of the leaves sort like their indices: for
    [0 <= i < j < leafCount] the path of leaf [i] is strictly below the path
    of leaf [j] in the order of strings. *)
Theorem leaf_paths_sort_numerically (options : Options) (i j : Z) :
  0 <= i < j -> j < count_of_leaf_source_files options ->
  String.ltb (get_source_file_path options i "src")
             (get_source_file_path options j "src") = true.
Proof.
  intros Hij Hj. rewrite !leaf_source_path, !unit_source_rel. unfold unit_name.
  cbn [unit_role unit_index].
  set (w := get_src_name_padding options).
  replace (root_prefix (output_directory options) +:+ "src/"
           +:+ ("src" +:+ "_" +:+ format_zero w i) +:+ ".cpp")
    with ((root_prefix (output_directory options) +:+ "src/src_")
          +:+ format_zero w i +:+ ".cpp")
    by (rewrite !string_app_assoc; reflexivity).
  replace (root_prefix (output_directory options) +:+ "src/"
           +:+ ("src" +:+ "_" +:+ format_zero w j) +:+ ".cpp")
    with ((root_prefix (output_directory options) +:+ "src/src_")
          +:+ format_zero w j +:+ ".cpp")
    by (rewrite !string_app_assoc; reflexivity).
  unfold String.ltb. rewrite compare_app_head.
  destruct (format_zero_digits w i ltac:(lia)) as (di & -> & Hvi & Hni).
  destruct (format_zero_digits w j ltac:(lia)) as (dj & -> & Hvj & Hnj).
  rewrite (digits_compare di dj); [reflexivity | | lia].
  rewrite Hni, Hnj. unfold w, get_src_name_padding, len.
  pose proof (str_length_mono i (count_of_leaf_source_files options) ltac:(lia)).
  pose proof (str_length_mono j (count_of_leaf_source_files options) ltac:(lia)).
  lia.
Qed.

Lemma leaf_paths_sort_numerically_witness :
  0 <= 9 < 10 /\ 10 < count_of_leaf_source_files (sample_options 100 10)
  /\ String.ltb "out/src/src_009.cpp" "out/src/src_010.cpp" = true.
Proof.
  assert (H1 : 0 <= 9 < 10) by lia.
  assert (H2 : 10 < count_of_leaf_source_files (sample_options 100 10)) by (cbn; lia).
  split; [exact H1|]. split; [exact H2|].
  exact (leaf_paths_sort_numerically (sample_options 100 10) 9 10 H1 H2).
Defined.

(** ** The build plan is closed *)

Section Closed.

Lemma concat_render_app (es fs : list Edge) :
  String.concat "" (map render_edge (es ++ fs))
  = String.concat "" (map render_edge es) +:+ String.concat "" (map render_edge fs).
Proof. now rewrite map_app, concat_empty_app. Qed.

End Closed.

(** The plan written by a successful run holds the edges of [plan_edges],
    and every input of every edge is there to be read or built: it is a
    source the run has written, or the output of an edge of the plan. *)
Theorem build_plan_is_closed (options : Options) (n : Z) (fs : FileSystem) :
  let root := output_directory options in
  let fs' := snd (main_generate options fs) in
  1 <= library_object_count options ->
  get_num_libraries_to_build options = Ok n ->
  files fs' !! get_ninja_file_path options
  = Some (plan_preamble options
          +:+ render_section "Build object files"
          +:+ String.concat ""
                (map render_edge
                   (firstn (length (units (count_of_leaf_source_files options) n))
                      (plan_edges options n)))
          +:+ render_section "Build libraries"
          +:+ String.concat ""
                (map render_edge
                   (firstn (Z.to_nat n)
                      (skipn (length (units (count_of_leaf_source_files options) n))
                         (plan_edges options n))))
          +:+ render_section "Build main executable"
          +:+ render_edge (link_edge options (len (str n)) n)
          +:+ render_section "Define the default target"
          +:+ "default " +:+ get_main_exe options +:+ nl)
  /\ forall e x, e ∈ plan_edges options n -> x ∈ edge_inputs e ->
       is_Some (files fs' !! x)
       \/ exists e', e' ∈ plan_edges options n /\ edge_output e' = x.
Proof.
  intros root fs' Hcap Hn. subst root fs'.
  set (us := units (count_of_leaf_source_files options) n).
  assert (Hfirst : firstn (length us) (plan_edges options n)
                   = map (compile_edge (output_directory options)
                            (get_src_name_padding options)) us).
  { unfold plan_edges. fold us.
    rewrite take_app_length' by now rewrite length_map. reflexivity. }
  assert (Hsecond : firstn (Z.to_nat n) (skipn (length us) (plan_edges options n))
                    = map (archive_edge options (len (str n))) (range n)).
  { unfold plan_edges. fold us.
    rewrite drop_app_length' by now rewrite length_map.
    rewrite take_app_length'; [reflexivity|].
    unfold range. now rewrite length_map, length_seqZ. }
  split.
  - rewrite (main_generate_ok options n fs Hcap Hn). cbn [snd].
    rewrite files_replay. unfold generation_log. rewrite !written_app.
    cbn [written plan_request]. unfold get_ninja_file_path, get_build_directory.
    fold (plan_path (output_directory options)). rewrite String.eqb_refl.
    f_equal. rewrite Hfirst, Hsecond, !map_map, exe_path_of_root. reflexivity.
  - intros e x He Hx. unfold plan_edges in He. fold us in He.
    apply elem_of_app in He. destruct He as [He|He].
    + (* a compile edge reads the source of a unit *)
      left. apply list_elem_of_fmap in He. destruct He as (u & -> & Hu).
      cbn [compile_edge edge_inputs] in Hx. apply list_elem_of_singleton in Hx.
      subst x. rewrite (main_generate_ok options n fs Hcap Hn). cbn [snd].
      rewrite files_replay.
      destruct (written (generation_log options n) _) eqn:E; [eauto|].
      exfalso. unfold generation_log in E. rewrite !written_app in E.
      cbn [written root_request plan_request] in E.
      destruct (String.eqb_spec (plan_path (output_directory options))
                  (unit_source (output_directory options)
                     (get_src_name_padding options) u)); [discriminate|].
      destruct (String.eqb_spec
                  (unit_source (output_directory options)
                     (get_src_name_padding options) Root)
                  (unit_source (output_directory options)
                     (get_src_name_padding options) u)) as [|Hroot]; [discriminate|].
      unfold us, units in Hu.
      apply elem_of_app in Hu. destruct Hu as [Hu|Hu].
      * apply list_elem_of_fmap in Hu. destruct Hu as (i & -> & Hi).
        apply elem_of_seqZ in Hi.
        rewrite written_leaf_requests in E by lia.
        now destruct (written (map _ _) _).
      * apply elem_of_app in Hu. destruct Hu as [Hu|Hu].
        -- apply list_elem_of_fmap in Hu. destruct Hu as (j & -> & Hj).
           apply elem_of_seqZ in Hj.
           rewrite written_library_requests in E by lia. discriminate.
        -- apply list_elem_of_singleton in Hu. subst u. now apply Hroot.
    + right. apply elem_of_app in He. destruct He as [He|He].
      * (* an archive edge reads objects that compile edges build *)
        apply list_elem_of_fmap in He. destruct He as (j & -> & Hj).
        apply elem_of_seqZ in Hj. cbn [archive_edge edge_inputs] in Hx.
        apply elem_of_app in Hx. destruct Hx as [Hx|Hx].
        -- apply list_elem_of_fmap in Hx. destruct Hx as (k & -> & Hk).
           unfold spec_range in Hk. cbn [fst snd] in Hk. apply elem_of_seqZ in Hk.
           exists (compile_edge (output_directory options)
                     (get_src_name_padding options) (Leaf k)).
           split; [|reflexivity]. unfold plan_edges. apply elem_of_app. left.
           apply list_elem_of_fmap. exists (Leaf k). split; [reflexivity|].
           unfold units. apply elem_of_app. left.
           apply list_elem_of_fmap. exists k. split; [reflexivity|].
           apply elem_of_seqZ. nia.
        -- apply list_elem_of_singleton in Hx. subst x.
           exists (compile_edge (output_directory options)
                     (get_src_name_padding options) (Library j)).
           split; [|reflexivity]. unfold plan_edges. apply elem_of_app. left.
           apply list_elem_of_fmap. exists (Library j). split; [reflexivity|].
           unfold units. apply elem_of_app. right. apply elem_of_app. left.
           apply list_elem_of_fmap. exists j. split; [reflexivity|].
           apply elem_of_seqZ. lia.
      * (* the link edge reads the root object and the archives *)
        apply list_elem_of_singleton in He. subst e.
        cbn [link_edge edge_inputs] in Hx.
        apply elem_of_cons in Hx. destruct Hx as [->|Hx].
        -- exists (compile_edge (output_directory options)
                     (get_src_name_padding options) Root).
           split; [|reflexivity]. unfold plan_edges. apply elem_of_app. left.
           apply list_elem_of_fmap. exists Root. split; [reflexivity|].
           unfold units. apply elem_of_app. right. apply elem_of_app. right.
           apply list_elem_of_singleton. reflexivity.
        -- apply list_elem_of_fmap in Hx. destruct Hx as (j & -> & Hj).
           exists (archive_edge options (len (str n)) j).
           split; [|reflexivity]. unfold plan_edges. apply elem_of_app. right.
           apply elem_of_app. left. apply list_elem_of_fmap. now exists j.
Qed.

Lemma build_plan_is_closed_witness :
  1 <= library_object_count (sample_options 5 2)
  /\ get_num_libraries_to_build (sample_options 5 2) = Ok 3
  /\ forall e x, e ∈ plan_edges (sample_options 5 2) 3 -> x ∈ edge_inputs e ->
       is_Some (files (snd (main_generate (sample_options 5 2) empty_fs)) !! x)
       \/ exists e', e' ∈ plan_edges (sample_options 5 2) 3 /\ edge_output e' = x.
Proof.
  assert (Hcap : 1 <= library_object_count (sample_options 5 2)) by (cbn; lia).
  assert (Hn : get_num_libraries_to_build (sample_options 5 2) = Ok 3)
    by (vm_compute; reflexivity).
  split; [exact Hcap|]. split; [exact Hn|].
  destruct (build_plan_is_closed (sample_options 5 2) 3 empty_fs Hcap Hn) as [_ H].
  exact H.
Defined.

(** ** A leaf count that is not positive *)

(** A negative leaf count behaves like a count of zero: whenever the library
    count is computed (capacity at least 1), the generators write the root
    unit alone, with an entry point that adds nothing. *)
Theorem nonpositive_leaf_count_generates_root_only (options : Options) (n : Z)
    (fs : FileSystem) :
  let main_cpp := get_source_file_path options 0 "main" in
  let main_text :=
    nl +:+ "int main() {" +:+ nl +:+ "  int ret = 0;" +:+ nl
    +:+ "  return ret;" +:+ nl +:+ "}" +:+ nl in
  count_of_leaf_source_files options <= 0 ->
  1 <= library_object_count options ->
  get_num_libraries_to_build options = Ok n ->
  n <= 0
  /\ generate_source_files options fs
     = (Ok ([], [], [main_cpp]), put_file main_cpp main_text fs).
Proof.
  intros main_cpp main_text Ha Hcap Hn. subst main_cpp main_text.
  pose proof (num_libraries_nonpos options n Ha Hcap Hn) as Hle.
  split; [exact Hle|].
  rewrite (generate_source_files_run options n Hn), root_source_path.
  unfold leaf_requests, root_request, root_unit_text, range.
  rewrite (seqZ_nil 0 n), (seqZ_nil 0 (count_of_leaf_source_files options)) by lia.
  reflexivity.
Qed.

Lemma nonpositive_leaf_count_generates_root_only_witness :
  count_of_leaf_source_files (sample_options (-5) 2) <= 0
  /\ 1 <= library_object_count (sample_options (-5) 2)
  /\ get_num_libraries_to_build (sample_options (-5) 2) = Ok (-2)
  /\ fst (generate_source_files (sample_options (-5) 2) empty_fs)
     = Ok ([], [], ["out/src/main_00.cpp"]).
Proof.
  assert (Ha : count_of_leaf_source_files (sample_options (-5) 2) <= 0) by (cbn; lia).
  assert (Hcap : 1 <= library_object_count (sample_options (-5) 2)) by (cbn; lia).
  assert (Hn : get_num_libraries_to_build (sample_options (-5) 2) = Ok (-2))
    by (vm_compute; reflexivity).
  split; [exact Ha|]. split; [exact Hcap|]. split; [exact Hn|].
  destruct (nonpositive_leaf_count_generates_root_only (sample_options (-5) 2) (-2)
              empty_fs Ha Hcap Hn) as [_ H].
  rewrite H. reflexivity.
Defined.

(** ** Witnesses of the properties below the limits of binary64 *)

Lemma partitions_nonempty_below_limit_witness :
  exists n, get_num_libraries_to_build (sample_options 5 2) = Ok n
            /\ forall j, 0 <= j < n ->
                 (get_lib_src_indices (sample_options 5 2) j).1
                 < (get_lib_src_indices (sample_options 5 2) j).2.
Proof.
  apply (partitions_nonempty_below_limit (sample_options 5 2)); cbn; lia.
Defined.

Lemma each_leaf_declared_once_below_limits_witness :
  exists n j,
    get_num_libraries_to_build (sample_options 5 2) = Ok n /\ j ∈ range n
    /\ 4 ∈ range2 (get_lib_src_indices (sample_options 5 2) j).1
                  (get_lib_src_indices (sample_options 5 2) j).2
    /\ forall j', j' ∈ range n ->
         4 ∈ range2 (get_lib_src_indices (sample_options 5 2) j').1
                    (get_lib_src_indices (sample_options 5 2) j').2 -> j' = j.
Proof.
  apply (each_leaf_declared_once_below_limits (sample_options 5 2) 4); cbn; lia.
Defined.

(** ** The build plan at a rounded library count (C5) *)

(** C5, at leafCount = 1 and libraryCapacity = 2 ^ 1100: the exact partition
    has the one range [[0, 1)], yet the script counts 0 libraries, and the
    plan of the run, which succeeds, has the compile edges of the leaf and
    of the root unit only: no library unit to compile, no archive edge for
    the partition, and a link edge over the root object alone. *)
Theorem float_ceiling_drops_archive_edge :
  let options := sample_options 1 (2 ^ 1100) in
  spec_partition 1 (2 ^ 1100) = [(0, 1)]
  /\ fst (main_generate options empty_fs) = Ok tt
  /\ files (snd (main_generate options empty_fs)) !! "out/build.ninja"
     = Some (plan_preamble options
             +:+ render_section "Build object files"
             +:+ "build out/obj/src_0.o: cc out/src/src_0.cpp" +:+ nl
             +:+ "build out/obj/main_0.o: cc out/src/main_0.cpp" +:+ nl
             +:+ render_section "Build libraries"
             +:+ render_section "Build main executable"
             +:+ "build out/bin/lod: link out/obj/main_0.o" +:+ nl
             +:+ render_section "Define the default target"
             +:+ "default out/bin/lod" +:+ nl).
Proof. vm_compute. repeat split. Qed.

(** Below the limits of binary64 the plan the run writes is the plan of the
    exact partition: its edges are those of [ceil (leafCount / capacity)]
    libraries. *)
Theorem build_plan_of_exact_partition (options : Options) (fs : FileSystem) :
  let a := count_of_leaf_source_files options in
  let b := library_object_count options in
  0 <= a < 2 ^ 53 -> 1 <= b <= 2 ^ 1022 ->
  fst (main_generate options fs) = Ok tt
  /\ files (snd (main_generate options fs)) !! get_ninja_file_path options
     = Some (build_plan_text options (ceil_div a b))
  /\ length (spec_partition a b) = Z.to_nat (ceil_div a b).
Proof.
  intros a b Ha Hb. subst a b.
  pose proof (num_libraries_exact options Ha Hb) as Hn.
  rewrite (main_generate_ok options _ fs ltac:(lia) Hn). cbn [fst snd].
  split; [reflexivity|]. split.
  - rewrite files_replay, written_generation_log.
    unfold get_ninja_file_path, get_build_directory.
    fold (plan_path (output_directory options)). now rewrite String.eqb_refl.
  - unfold spec_partition, range. now rewrite length_map, length_seqZ.
Qed.

Lemma build_plan_of_exact_partition_witness :
  0 <= count_of_leaf_source_files (sample_options 5 2) < 2 ^ 53
  /\ 1 <= library_object_count (sample_options 5 2) <= 2 ^ 1022
  /\ files (snd (main_generate (sample_options 5 2) empty_fs))
    !! get_ninja_file_path (sample_options 5 2)
  = Some (build_plan_text (sample_options 5 2) 3).
Proof.
  assert (Ha : 0 <= count_of_leaf_source_files (sample_options 5 2) < 2 ^ 53)
    by (cbn; lia).
  assert (Hb : 1 <= library_object_count (sample_options 5 2) <= 2 ^ 1022)
    by (cbn; lia).
  split; [exact Ha|]. split; [exact Hb|].
  destruct (build_plan_of_exact_partition (sample_options 5 2) empty_fs Ha Hb)
    as (_ & H & _).
  exact H.
Defined.

(** ** Non-empty partitions (C10) *)



(** ** Determinism (C7) *)

(** C7: two runs with the same configuration, from any two states of the
    output tree, both succeed (capacity at least 1, library count computed)
    and leave the same bytes in every generated file: each leaf unit, each
    library unit, the root unit and the build plan hold, after either run,
    the text that the configuration determines, whatever the file held
    before.  A further run over the result changes nothing. *)
Theorem generation_deterministic (options : Options) (n : Z)
    (fs1 fs2 : FileSystem) :
  let w := get_src_name_padding options in
  let out1 := snd (main_generate options fs1) in
  let out2 := snd (main_generate options fs2) in
  1 <= library_object_count options ->
  get_num_libraries_to_build options = Ok n ->
  fst (main_generate options fs1) = Ok tt
  /\ fst (main_generate options fs2) = Ok tt
  /\ (forall i, 0 <= i < count_of_leaf_source_files options ->
        files out1 !! get_source_file_path options i "src"
        = Some (leaf_contents w i)
        /\ files out2 !! get_source_file_path options i "src"
           = Some (leaf_contents w i))
  /\ (forall j, 0 <= j < n ->
        let text := library_unit_text w (len (str n)) j
                      (get_lib_src_indices options j).1
                      (get_lib_src_indices options j).2 in
        files out1 !! get_source_file_path options j "lib" = Some text
        /\ files out2 !! get_source_file_path options j "lib" = Some text)
  /\ (files out1 !! get_source_file_path options 0 "main"
      = Some (root_unit_text (len (str n)) n)
      /\ files out2 !! get_source_file_path options 0 "main"
         = Some (root_unit_text (len (str n)) n))
  /\ (files out1 !! get_ninja_file_path options = Some (build_plan_text options n)
      /\ files out2 !! get_ninja_file_path options
         = Some (build_plan_text options n))
  /\ main_generate options out1 = (Ok tt, out1).
Proof.
  intros w out1 out2 Hcap Hn. subst w out1 out2.
  assert (Hleaf : forall fs i, 0 <= i < count_of_leaf_source_files options ->
            files (replay (generation_log options n) fs)
              !! get_source_file_path options i "src"
            = Some (leaf_contents (get_src_name_padding options) i)).
  { intros fs i Hi. rewrite leaf_source_path, files_replay, written_generation_log.
    destruct (String.eqb_spec (plan_path (output_directory options))
                (unit_source (output_directory options)
                   (get_src_name_padding options) (Leaf i))) as [E|_];
      [symmetry in E; now apply source_not_plan in E|].
    destruct (String.eqb_spec
                (unit_source (output_directory options)
                   (get_src_name_padding options) Root)
                (unit_source (output_directory options)
                   (get_src_name_padding options) (Leaf i))) as [E|_];
      [apply unit_source_inj in E; discriminate|].
    rewrite written_library_requests_other, written_leaf_requests by
      (try lia; intros j _ E; apply unit_source_inj in E; discriminate).
    reflexivity. }
  assert (Hlib : forall fs j, 0 <= j < n ->
            files (replay (generation_log options n) fs)
              !! get_source_file_path options j "lib"
            = Some (library_unit_text (get_src_name_padding options) (len (str n)) j
                      (get_lib_src_indices options j).1
                      (get_lib_src_indices options j).2)).
  { intros fs j Hj. rewrite library_source_path, files_replay, written_generation_log.
    destruct (String.eqb_spec (plan_path (output_directory options))
                (unit_source (output_directory options)
                   (get_src_name_padding options) (Library j))) as [E|_];
      [symmetry in E; now apply source_not_plan in E|].
    destruct (String.eqb_spec
                (unit_source (output_directory options)
                   (get_src_name_padding options) Root)
                (unit_source (output_directory options)
                   (get_src_name_padding options) (Library j))) as [E|_];
      [apply unit_source_inj in E; discriminate|].
    now rewrite written_library_requests by lia. }
  assert (Hroot : forall fs,
            files (replay (generation_log options n) fs)
              !! get_source_file_path options 0 "main"
            = Some (root_unit_text (len (str n)) n)).
  { intros fs. rewrite root_source_path, files_replay, written_generation_log.
    destruct (String.eqb_spec (plan_path (output_directory options))
                (unit_source (output_directory options)
                   (get_src_name_padding options) Root)) as [E|_];
      [symmetry in E; now apply source_not_plan in E|].
    now rewrite String.eqb_refl. }
  assert (Hplan : forall fs,
            files (replay (generation_log options n) fs)
              !! get_ninja_file_path options
            = Some (build_plan_text options n)).
  { intros fs. rewrite files_replay, written_generation_log.
    unfold get_ninja_file_path, get_build_directory.
    fold (plan_path (output_directory options)). now rewrite String.eqb_refl. }
  rewrite !(main_generate_ok options n _ Hcap Hn). cbn [fst snd].
  split; [reflexivity|]. split; [reflexivity|].
  split; [intros i Hi; split; now apply Hleaf|].
  split; [intros j Hj; split; now apply Hlib|].
  split; [split; apply Hroot|].
  split; [split; apply Hplan|].
  now rewrite replay_idempotent.
Qed.

Lemma generation_deterministic_witness :
  1 <= library_object_count (sample_options 5 2)
  /\ get_num_libraries_to_build (sample_options 5 2) = Ok 3
  /\ files (snd (main_generate (sample_options 5 2) empty_fs))
       !! get_ninja_file_path (sample_options 5 2)
     = Some (build_plan_text (sample_options 5 2) 3)
  /\ files (snd (main_generate (sample_options 5 2)
                    (put_file "out/build.ninja" "stale" empty_fs)))
       !! get_ninja_file_path (sample_options 5 2)
     = Some (build_plan_text (sample_options 5 2) 3).
Proof.
  assert (Hcap : 1 <= library_object_count (sample_options 5 2)) by (cbn; lia).
  assert (Hn : get_num_libraries_to_build (sample_options 5 2) = Ok 3)
    by (vm_compute; reflexivity).
  split; [exact Hcap|]. split; [exact Hn|].
  destruct (generation_deterministic (sample_options 5 2) 3 empty_fs
              (put_file "out/build.ninja" "stale" empty_fs) Hcap Hn)
    as (_ & _ & _ & _ & _ & H & _).
  exact H.
Defined.
